(** * sqlalchemy_multidb_manager: the TTL pool cache and the session factory

    A shallow embedding of [db_cacher.py] (class [IndividualTTLCache]) and
    [db_factory.py] (class [DatabaseManager]).

    - Python objects with mutable attributes are records threaded through a
      small state-and-exception monad [Py].
    - The dictionary [_connections] is a [gmap] from tenant keys to
      [_pool_connection] named tuples.
    - [time.time()] returns a finite float; the code only compares such
      values with [<] and never adds to them, so a reading is modelled as a
      rational [Q] (every finite float is one, and the comparison is exact).
      Each operation that reads the clock takes the reading as an argument.
    - SQLAlchemy is an external collaborator: an [Engine] is the record of the
      arguments [create_engine] received, and the calls that can fail there
      ([create_engine], [connect], [sessionmaker], the session constructor)
      take their outcome from an environment [Env].
    - Every method is modelled as one atomic step; the interleaving of the
      sweeper thread with foreground calls inside a method is not modelled. *)

From Stdlib Require Import ZArith QArith Lqa String List Lia.
From stdpp Require Import base option gmap strings list.

Local Open Scope Z_scope.

(** ** Python values, exceptions and the effect monad *)

Module Py.

(** The exception classes the two files can meet.  [BaseExceptionOnly]
    stands for the classes that derive from [BaseException] but not from
    [Exception] (KeyboardInterrupt, SystemExit, asyncio.CancelledError). *)
Inductive ExcClass :=
| SQLAlchemyError
| KeyError
| TypeError
| IndexError
| OverflowError
| OtherException
| BaseExceptionOnly.

Record Exc := mkExc { exc_class : ExcClass; exc_str : string }.

(** [isinstance(e, SQLAlchemyError)] *)
Definition is_SQLAlchemyError (e : Exc) : bool :=
  match exc_class e with SQLAlchemyError => true | _ => false end.

(** [isinstance(e, Exception)] *)
Definition is_Exception (e : Exc) : bool :=
  match exc_class e with BaseExceptionOnly => false | _ => true end.

Inductive outcome (A : Type) :=
| Return (a : A)
| Raise (e : Exc).
Arguments Return {A} a.
Arguments Raise {A} e.

(** A computation over a mutable object of type [S]: it returns or raises,
    and in both cases leaves a state behind. *)
Definition M (S A : Type) : Type := S -> outcome A * S.

Definition ret {S A} (a : A) : M S A := fun s => (Return a, s).
Definition raise {S A} (e : Exc) : M S A := fun s => (Raise e, s).
Definition bind {S A B} (c : M S A) (k : A -> M S B) : M S B :=
  fun s => match c s with
           | (Return a, s') => k a s'
           | (Raise e, s') => (Raise e, s')
           end.
Definition read {S} : M S S := fun s => (Return s, s).
Definition write {S} (s : S) : M S unit := fun _ => (Return tt, s).

(** [try: body  except C1 as e: h1(e)  except C2 as e: h2(e) ...]: the first
    clause whose class test accepts the exception handles it; an exception no
    clause accepts propagates, and so does one raised inside a handler. *)
Fixpoint handler_for {S A} (clauses : list ((Exc -> bool) * (Exc -> M S A)))
    (e : Exc) : option (Exc -> M S A) :=
  match clauses with
  | [] => None
  | (accepts, handler) :: rest =>
      if accepts e then Some handler else handler_for rest e
  end.

Definition try_except {S A} (body : M S A)
    (clauses : list ((Exc -> bool) * (Exc -> M S A))) : M S A :=
  fun s => match body s with
           | (Return a, s') => (Return a, s')
           | (Raise e, s') =>
               match handler_for clauses e with
               | Some handler => handler e s'
               | None => (Raise e, s')
               end
           end.

(** [for x in xs: body(x)] *)
Fixpoint for_each {S A} (xs : list A) (body : A -> M S unit) : M S unit :=
  match xs with
  | [] => ret tt
  | x :: rest => bind (body x) (fun _ => for_each rest body)
  end.

(** Run a computation that belongs to a component of the state. *)
Definition zoom {S T A} (proj : S -> T) (upd : T -> S -> S) (c : M T A) : M S A :=
  fun s => let '(r, t') := c (proj s) in (r, upd t' s).

Definition result {S A} (c : M S A) (s : S) : outcome A := fst (c s).
Definition final {S A} (c : M S A) (s : S) : S := snd (c s).

(** [int | None] *)
Definition int_or_none := option Z.

(** Truth value of an [int | None]: [None] and [0] are falsy. *)
Definition truthy (v : int_or_none) : bool :=
  match v with
  | Some n => negb (n =? 0)
  | None => false
  end.

(** The integer nearest to [num / den], ties to the even one
    ([0 <= num], [0 < den]). *)
Definition round_half_even (num den : Z) : Z :=
  let q := num / den in
  let r := num mod den in
  if 2 * r <? den then q
  else if den <? 2 * r then q + 1
  else if Z.even q then q else q + 1.

(** The float [a / 3] for an integer [a > 0], as a pair [(m, e)] that stands
    for [m * 2^e]: true division of two integers gives the double nearest
    to the exact quotient (ties to even), so [e] is the exponent [k] of the
    quotient ([2^k <= a/3 < 2^(k+1)]) less the 52 fraction bits, and [m]
    the quotient scaled by [2^-e] and rounded. *)
Definition float_third (a : Z) : Z * Z :=
  let l := Z.log2 a in
  let k := if 3 * 2 ^ (l + 1) <=? 4 * a then l - 1 else l - 2 in
  let e := k - 52 in
  (if 0 <=? e
   then round_half_even a (3 * 2 ^ e)
   else round_half_even (a * 2 ^ (- e)) 3,
   e).

(** [int(v / 3)]: the true division gives a float, or raises
    [OverflowError] when the rounded quotient does not fit a double
    (it reaches [2^1024]); [int] then truncates the float toward zero.
    [None / 3] raises [TypeError]. *)
Definition int_truediv3 (v : int_or_none) : outcome Z :=
  match v with
  | Some n =>
      if n =? 0 then Return 0
      else
        let '(m, e) := float_third (Z.abs n) in
        if (0 <=? e) && (2 ^ 1024 <=? m * 2 ^ e)
        then Raise (mkExc OverflowError "integer division result too large for a float")
        else Return (Z.sgn n * (if 0 <=? e then m * 2 ^ e else m / 2 ^ (- e)))
  | None => Raise (mkExc TypeError "unsupported operand type(s) for /: 'NoneType' and 'int'")
  end.

(** The values for which [int(v / 3)] is spelled out below: [None], and
    the integers of magnitude under [3 * 2^52], whose float third still
    carries its fraction. *)
Definition within_exact_range (v : int_or_none) : Prop :=
  match v with
  | Some n => Z.abs n < 3 * 2 ^ 52
  | None => True
  end.

(** A parameter with a default: [None] is an omitted argument. *)
Definition arg {A} (default : A) (given : option A) : A :=
  match given with
  | Some a => a
  | None => default
  end.

(** [v or rhs] on an [int | None]: [rhs] is evaluated, and can raise, only
    when [v] is falsy. *)
Definition or_else (v : int_or_none) (rhs : outcome Z) : outcome Z :=
  match v with
  | Some n => if truthy v then Return n else rhs
  | None => rhs
  end.

(** [t[i]] on a tuple. *)
Definition tuple_getitem {S} (t : list Z) (i : nat) : M S Z :=
  match t !! i with
  | Some x => ret x
  | None => raise (mkExc IndexError "tuple index out of range")
  end.

(** Sequencing of expressions that can raise before any object exists. *)
Definition and_then {A B} (r : outcome A) (k : A -> outcome B) : outcome B :=
  match r with
  | Return a => k a
  | Raise e => Raise e
  end.

End Py.

Import Py.

Declare Scope py_scope.
Delimit Scope py_scope with py.
Notation "x <- c ;; k" := (Py.bind c (fun x => k))
  (at level 100, c at next level, right associativity) : py_scope.
Notation "c ;;; k" := (Py.bind c (fun _ => k))
  (at level 100, right associativity) : py_scope.

(** ** The SQLAlchemy objects the code handles *)

Module Sqlalchemy.

(** What [create_engine] was called with; [engine_id] tells apart two
    engines built with the same arguments (object identity). *)
Record Engine := mkEngine {
  engine_id : nat;
  url : string;
  pool_size : Z;
  pool_recycle : Z;
  max_overflow : Z;
  pool_pre_ping : bool;
  hide_parameters : bool
}.

(** The connection [db_pool.connect()] hands out. *)
Record Connection := mkConnection { connection_engine : Engine }.

(** The object [sessionmaker(autocommit, autoflush, bind)()] returns. *)
Record Session := mkSession {
  autocommit : bool;
  autoflush : bool;
  session_bind : Connection
}.

(** The outcome of the library calls for one request: each field gives the
    exception the call raises, [None] when it succeeds. *)
Record Env := mkEnv {
  create_engine_error : Engine -> option Exc;
  connect_error : Engine -> option Exc;
  sessionmaker_error : Connection -> option Exc;
  session_error : Connection -> option Exc
}.

Definition call {S} (error : option Exc) : M S unit :=
  match error with
  | Some e => Py.raise e
  | None => Py.ret tt
  end.

End Sqlalchemy.

Import Sqlalchemy.

(** ** db_cacher.py *)

(** [database_name: str | int] *)
Inductive TenantKey :=
| KStr (s : string)
| KInt (n : Z).

#[global] Instance TenantKey_eq_dec : EqDecision TenantKey.
Proof. solve_decision. Defined.

#[global] Instance TenantKey_countable : Countable TenantKey :=
  inj_countable'
    (fun k => match k with KStr s => inl s | KInt n => inr n end)
    (fun c => match c with inl s => KStr s | inr n => KInt n end)
    (fun k => match k with KStr _ => eq_refl | KInt _ => eq_refl end).

Module DbCacher.

(** [namedtuple("db_pool", "db_pool life_time")] *)
Record _pool_connection := mk_pool_connection {
  db_pool : Engine;
  life_time : Q
}.

Record IndividualTTLCache := mkCache {
  _connections : gmap TenantKey _pool_connection;
  _maxsize : Z;
  _default_ttl : Z
}.

Definition set_connections (d : gmap TenantKey _pool_connection)
    (self : IndividualTTLCache) : IndividualTTLCache :=
  {| _connections := d; _maxsize := _maxsize self; _default_ttl := _default_ttl self |}.

(** [a < b] on two clock readings. *)
Definition time_lt (a b : Q) : bool := negb (Qle_bool b a).

(** *** The dictionary primitives the class uses *)

(** [d.get(k)] *)
Definition dict_get (k : TenantKey) : M IndividualTTLCache (option _pool_connection) :=
  (self <- Py.read ;; Py.ret (_connections self !! k))%py.

(** [d[k] = v] *)
Definition dict_setitem (k : TenantKey) (v : _pool_connection) : M IndividualTTLCache unit :=
  (self <- Py.read ;; Py.write (set_connections (<[k := v]> (_connections self)) self))%py.

(** [k in d] *)
Definition dict_contains (k : TenantKey) : M IndividualTTLCache bool :=
  (self <- Py.read ;; Py.ret (bool_decide (is_Some (_connections self !! k))))%py.

(** [del d[k]]: raises [KeyError] when [k] is not in [d]. *)
Definition dict_delitem (k : TenantKey) : M IndividualTTLCache unit :=
  (self <- Py.read ;;
   match _connections self !! k with
   | Some _ => Py.write (set_connections (delete k (_connections self)) self)
   | None => Py.raise (mkExc KeyError "")
   end)%py.

(** [list(d.items())], in the dictionary's iteration order. *)
Definition dict_items : M IndividualTTLCache (list (TenantKey * _pool_connection)) :=
  (self <- Py.read ;; Py.ret (map_to_list (_connections self)))%py.

(** *** The methods *)

(** The constructor; the sweeper thread it starts is [cleanup_expired_items]. *)
Definition __init__ (maxsize default_ttl : option Z) : IndividualTTLCache :=
  {| _maxsize := Py.arg 10 maxsize;
     _default_ttl := Py.arg 900 default_ttl;
     _connections := ∅ |}.

(** A named tuple of two fields is a non-empty tuple, hence truthy: the
    conditional expression takes its first branch exactly when the key is
    in the dictionary. *)
Definition get (database_name : TenantKey) : M IndividualTTLCache (option Engine) :=
  (database_poll <- dict_get database_name ;;
   Py.ret (match database_poll with
           | Some entry => Some (db_pool entry)
           | None => None
           end))%py.

(** [time_time] is the value [time.time()] returns in the call. *)
Definition __setitem__ (database_name : TenantKey) (queue_pool : Engine) (time_time : Q)
    : M IndividualTTLCache unit :=
  dict_setitem database_name (mk_pool_connection queue_pool time_time).

Definition __delitem__ (database_name : TenantKey) : M IndividualTTLCache unit :=
  (present <- dict_contains database_name ;;
   if present then dict_delitem database_name else Py.ret tt)%py.

(** One iteration of the loop of [cleanup_expired_items], up to the sleep.
    A Python dictionary iterates in insertion order and [map_to_list] in the
    order of the map; the keys are only deleted one after the other, so the
    order does not show in the result ([sweep_eq]). *)
Definition sweep (current_time : Q) : M IndividualTTLCache unit :=
  (items <- dict_items ;;
   let keys_to_delete :=
     List.map fst
       (List.filter (fun '(_, database_poll) => time_lt (life_time database_poll) current_time)
          items) in
   Py.for_each keys_to_delete __delitem__)%py.

(** [cleanup_expired_items]: [while True] never returns, so the model runs
    the iterations for a finite list of successive clock readings. *)
Definition cleanup_expired_items (clock : list Q) : M IndividualTTLCache unit :=
  Py.for_each clock sweep.

(** *** Histories *)

(** The calls a cache receives, each an atomic step; the ones that read the
    clock carry the reading. *)
Inductive call :=
| CallGet (k : TenantKey)
| CallSet (k : TenantKey) (pool : Engine) (time_time : Q)
| CallDel (k : TenantKey)
| CallSweep (current_time : Q).

Definition run_call (c : call) : M IndividualTTLCache unit :=
  match c with
  | CallGet k => (_ <- get k ;; Py.ret tt)%py
  | CallSet k pool t => __setitem__ k pool t
  | CallDel k => __delitem__ k
  | CallSweep t => sweep t
  end.

Definition run (history : list call) : M IndividualTTLCache unit :=
  Py.for_each history run_call.

Definition is_get (c : call) : bool :=
  match c with CallGet _ => true | _ => false end.

(** The calls that neither overwrite nor delete key [k], nor sweep at a clock
    reading above [t]. *)
Definition keeps (k : TenantKey) (t : Q) (c : call) : bool :=
  match c with
  | CallGet _ => true
  | CallSet k' _ _ => bool_decide (k' <> k)
  | CallDel k' => bool_decide (k' <> k)
  | CallSweep current_time => Qle_bool current_time t
  end.

End DbCacher.

Import DbCacher.

(** ** db_factory.py *)

Module DbFactory.

Record DatabaseManager := mkManager {
  db_cacher : IndividualTTLCache;
  main_db : string;
  db_url : string;
  _main_db_poolsize : Z;
  _main_db_recycle : Z;
  (** the two assignments below end in a comma: the attributes hold tuples *)
  _regular_db_poolsize : list Z;
  _regular_db_recycle : list Z
}.

Definition set_db_cacher (c : IndividualTTLCache) (self : DatabaseManager) : DatabaseManager :=
  {| db_cacher := c;
     main_db := main_db self;
     db_url := db_url self;
     _main_db_poolsize := _main_db_poolsize self;
     _main_db_recycle := _main_db_recycle self;
     _regular_db_poolsize := _regular_db_poolsize self;
     _regular_db_recycle := _regular_db_recycle self |}.

(** Each of the four sizing parameters is [None] when the caller leaves it
    out, and otherwise the [int | None] the caller passed. *)
Definition __init__ (main_db db_url : string)
    (main_db_poolsize main_db_recycle regular_db_poolsize regular_db_recycle
       : option int_or_none) : outcome DatabaseManager :=
  let main_db_poolsize := Py.arg (Some 15) main_db_poolsize in
  let main_db_recycle := Py.arg (Some 900) main_db_recycle in
  let regular_db_poolsize := Py.arg (Some 5) regular_db_poolsize in
  let regular_db_recycle := Py.arg (Some 300) regular_db_recycle in
  let db_cacher := DbCacher.__init__ None None in
  Py.and_then (Py.or_else main_db_poolsize (Return 15)) (fun main_poolsize =>
  Py.and_then (Py.or_else main_db_recycle (Return 900)) (fun main_recycle =>
  Py.and_then (Py.or_else regular_db_poolsize (Py.int_truediv3 main_db_poolsize))
    (fun regular_poolsize =>
  Py.and_then (Py.or_else regular_db_recycle (Py.int_truediv3 main_db_recycle))
    (fun regular_recycle =>
  Return {| db_cacher := db_cacher;
            main_db := main_db;
            db_url := db_url;
            _main_db_poolsize := main_poolsize;
            _main_db_recycle := main_recycle;
            _regular_db_poolsize := [regular_poolsize];
            _regular_db_recycle := [regular_recycle] |})))).

(** *** The process around a manager *)

Inductive Level := ERROR | WARNING | INFO | DEBUG.

Record LogRecord := mkLog { levelname : Level; message : string }.

(** The manager, the records the [logging] module received, and the engines
    [create_engine] has returned so far, oldest first. *)
Record Process := mkProcess {
  manager : DatabaseManager;
  log : list LogRecord;
  engines : list Engine
}.

Definition set_manager (m : DatabaseManager) (p : Process) : Process :=
  {| manager := m; log := log p; engines := engines p |}.

Definition on_cache {A} (c : M IndividualTTLCache A) : M Process A :=
  Py.zoom (fun p => db_cacher (manager p))
          (fun c p => set_manager (set_db_cacher c (manager p)) p) c.

(** [logging.error(msg)] *)
Definition logging_error (msg : string) : M Process unit :=
  (p <- Py.read ;;
   Py.write {| manager := manager p;
               log := log p ++ [mkLog ERROR msg];
               engines := engines p |})%py.

(** [create_engine(url=..., pool_size=..., ...)]: the library either rejects
    the arguments or returns a new engine. *)
Definition create_engine (env : Env) (url : string) (pool_size pool_recycle max_overflow : Z)
    (pool_pre_ping hide_parameters : bool) : M Process Engine :=
  (p <- Py.read ;;
   let engine := mkEngine (length (engines p)) url pool_size pool_recycle max_overflow
                          pool_pre_ping hide_parameters in
   Sqlalchemy.call (create_engine_error env engine) ;;;
   Py.write {| manager := manager p; log := log p; engines := engines p ++ [engine] |} ;;;
   Py.ret engine)%py.

(** *** The methods *)

Definition _create_pool_connection (env : Env) (db_pool : Engine) : M Process Session :=
  Py.try_except
    (Sqlalchemy.call (connect_error env db_pool) ;;;
     let engine := mkConnection db_pool in
     Sqlalchemy.call (sessionmaker_error env engine) ;;;
     Sqlalchemy.call (session_error env engine) ;;;
     Py.ret (mkSession false false engine))%py
    [ (Py.is_SQLAlchemyError,
       fun connection_error =>
         (logging_error ("error while creating database connection from pool: "
                           ++ exc_str connection_error) ;;;
          Py.raise connection_error)%py);
      (Py.is_Exception,
       fun generic_error =>
         (logging_error ("error raise while creating database connection from pool: "
                           ++ exc_str generic_error) ;;;
          Py.raise generic_error)%py) ].

(** An [Engine] object is truthy, so [if cached_db_pool:] is taken exactly on
    a cache hit.  The coroutine has no suspension point of its own: the only
    [await]s are on [_create_pool_connection], which has none. *)
Definition create_session (env : Env) (db_name : string) (time_time : Q) : M Process Session :=
  (cached_db_pool <- on_cache (DbCacher.get (KStr db_name)) ;;
   match cached_db_pool with
   | Some cached_db_pool => _create_pool_connection env cached_db_pool
   | None =>
       p <- Py.read ;;
       let self := manager p in
       pool_size <- (if String.eqb db_name (main_db self)
                     then Py.ret (_main_db_poolsize self)
                     else Py.tuple_getitem (_regular_db_poolsize self) 0) ;;
       pool_recycle <- (if String.eqb db_name (main_db self)
                        then Py.ret (_main_db_recycle self)
                        else Py.tuple_getitem (_regular_db_recycle self) 0) ;;
       db_pool <- create_engine env (db_url self ++ "/" ++ db_name)
                    pool_size pool_recycle 10 true true ;;
       on_cache (DbCacher.__setitem__ (KStr db_name) db_pool time_time) ;;;
       _create_pool_connection env db_pool
   end)%py.

(** The [try] body of [_create_pool_connection] raises [e]: at the
    connection acquisition, at [sessionmaker(...)], or at the call of the
    session maker. *)
Inductive fails_with (env : Env) (db_pool : Engine) (e : Exc) : Prop :=
| fails_at_connect :
    connect_error env db_pool = Some e ->
    fails_with env db_pool e
| fails_at_sessionmaker :
    connect_error env db_pool = None ->
    sessionmaker_error env (mkConnection db_pool) = Some e ->
    fails_with env db_pool e
| fails_at_session :
    connect_error env db_pool = None ->
    sessionmaker_error env (mkConnection db_pool) = None ->
    session_error env (mkConnection db_pool) = Some e ->
    fails_with env db_pool e.

(** Every call of the [try] body of [_create_pool_connection] succeeds,
    on every engine. *)
Definition succeeds (env : Env) : Prop :=
  forall engine,
    connect_error env engine = None
    /\ sessionmaker_error env (mkConnection engine) = None
    /\ session_error env (mkConnection engine) = None.

(** The text of the record each [except] clause logs. *)
Definition logged_message (e : Exc) : string :=
  (if Py.is_SQLAlchemyError e
   then "error while creating database connection from pool: "
   else "error raise while creating database connection from pool: ") ++ exc_str e.

(** The two tenant classes: the key equal to [main_db], and every other key. *)
Inductive tenant_class := MainTenant | RegularTenant.

Definition class_of (self : DatabaseManager) (db_name : string) : tenant_class :=
  if String.eqb db_name (main_db self) then MainTenant else RegularTenant.

(** "Manager [m] builds the pools of class [cls] with [field] = [value]":
    in every process that runs [m] (whatever its cache holds), every
    [create_session] that misses the cache on a key of that class and whose
    [create_engine] call is accepted builds exactly one engine, with that
    value. *)
Definition builds_with (m : DatabaseManager) (cls : tenant_class)
    (field : Engine -> Z) (value : Z) : Prop :=
  forall (env : Env) (db_name : string) (now : Q) (p : Process) (c : IndividualTTLCache),
    manager p = set_db_cacher c m ->
    class_of m db_name = cls ->
    _connections c !! KStr db_name = None ->
    (forall engine, create_engine_error env engine = None) ->
    exists built,
      engines (Py.final (create_session env db_name now) p) = engines p ++ [built]
      /\ field built = value.

(** A manager just constructed, in a process that has logged nothing and
    built no engine. *)
Definition start (m : DatabaseManager) : Process :=
  {| manager := m; log := []; engines := [] |}.

End DbFactory.

(** ** Concrete objects used in the examples *)

Module Samples.

Definition poolX : Engine := mkEngine 0 "postgresql://host/tenantA" 5 300 10 true true.

(** [IndividualTTLCache()] with the default [maxsize] and [default_ttl]. *)
Definition default_cache : IndividualTTLCache := DbCacher.__init__ None None.

(** [IndividualTTLCache(maxsize=10, default_ttl=1)] *)
Definition short_cache : IndividualTTLCache := DbCacher.__init__ (Some 10) (Some 1).

(** Every library call succeeds. *)
Definition healthy : Env :=
  mkEnv (fun _ => None) (fun _ => None) (fun _ => None) (fun _ => None).

(** The database refuses the connection. *)
Definition refusing : Env :=
  mkEnv (fun _ => None)
        (fun _ => Some (mkExc SQLAlchemyError "connection refused"))
        (fun _ => None) (fun _ => None).

(** [DatabaseManager("main", "postgresql://host")] *)
Definition default_manager : DbFactory.DatabaseManager :=
  {| DbFactory.db_cacher := default_cache;
     DbFactory.main_db := "main";
     DbFactory.db_url := "postgresql://host";
     DbFactory._main_db_poolsize := 15;
     DbFactory._main_db_recycle := 900;
     DbFactory._regular_db_poolsize := [5];
     DbFactory._regular_db_recycle := [300] |}.

(** [IndividualTTLCache(maxsize=2)] *)
Definition tiny_cache : IndividualTTLCache := DbCacher.__init__ (Some 2) None.

(** [create_engine] rejects the arguments. *)
Definition rejecting : Env :=
  mkEnv (fun _ => Some (mkExc OtherException "Could not parse SQLAlchemy URL"))
        (fun _ => None) (fun _ => None) (fun _ => None).

(** The task is cancelled while the connection is acquired. *)
Definition interrupting : Env :=
  mkEnv (fun _ => None)
        (fun _ => Some (mkExc BaseExceptionOnly "KeyboardInterrupt"))
        (fun _ => None) (fun _ => None).

End Samples.

(** ** Facts about the cache *)

Section CacheFacts.

Import DbCacher.

Implicit Types (self : IndividualTTLCache) (k : TenantKey) (pool : Engine) (t : Q).

Lemma set_connections_same self :
  set_connections (_connections self) self = self.
Proof. by destruct self. Qed.

Lemma set_connections_twice (d d' : gmap TenantKey _pool_connection) self :
  set_connections d (set_connections d' self) = set_connections d self.
Proof. reflexivity. Qed.

Lemma time_lt_true a b : time_lt a b = true <-> (a < b)%Q.
Proof.
  unfold time_lt. rewrite negb_true_iff, <- not_true_iff_false, Qle_bool_iff.
  split; [apply Qnot_le_lt | apply Qlt_not_le].
Qed.

Lemma time_lt_false a b : time_lt a b = false <-> (b <= a)%Q.
Proof.
  unfold time_lt. rewrite negb_false_iff. apply Qle_bool_iff.
Qed.

Lemma get_eq k self :
  get k self = (Return (db_pool <$> _connections self !! k), self).
Proof.
  unfold get, dict_get, Py.bind, Py.read, Py.ret.
  by destruct (_connections self !! k).
Qed.

Lemma setitem_eq k pool t self :
  __setitem__ k pool t self =
  (Return tt, set_connections (<[k := mk_pool_connection pool t]> (_connections self)) self).
Proof. reflexivity. Qed.

(** The membership test makes [del] safe: the method returns in both cases. *)
Lemma delitem_eq k self :
  __delitem__ k self = (Return tt, set_connections (delete k (_connections self)) self).
Proof.
  unfold __delitem__, dict_contains, dict_delitem, Py.bind, Py.read, Py.ret, Py.write.
  destruct (_connections self !! k) as [entry|] eqn:Hk.
  - rewrite bool_decide_eq_true_2 by eauto. by rewrite Hk.
  - rewrite bool_decide_eq_false_2 by (intros [? ?]; congruence).
    by rewrite delete_id, set_connections_same.
Qed.

Lemma for_each_delitem (keys : list TenantKey) self :
  Py.for_each keys __delitem__ self =
  (Return tt, set_connections (fold_left (fun d k => delete k d) keys (_connections self)) self).
Proof.
  revert self. induction keys as [|k keys IH]; intros self; simpl.
  - by rewrite set_connections_same.
  - unfold Py.bind. rewrite delitem_eq, IH. reflexivity.
Qed.

Lemma lookup_fold_delete (keys : list TenantKey) (d : gmap TenantKey _pool_connection) k :
  fold_left (fun d k => delete k d) keys d !! k =
  if decide (k ∈ keys) then None else d !! k.
Proof.
  revert d. induction keys as [|k' keys IH]; intros d.
  - case_decide as Hin; [by apply elem_of_nil in Hin | done].
  - change (fold_left (fun d k => delete k d) keys (delete k' d) !! k =
            if decide (k ∈ k' :: keys) then None else d !! k).
    rewrite IH.
    destruct (decide (k ∈ keys)) as [Hin|Hnotin];
      destruct (decide (k ∈ k' :: keys)) as [Hin'|Hnotin']; try done.
    + exfalso. by apply Hnotin', list_elem_of_further.
    + apply elem_of_cons in Hin' as [->|Hin']; [apply lookup_delete_eq | done].
    + apply lookup_delete_ne. intros ->. apply Hnotin', list_elem_of_here.
Qed.

Lemma elem_of_expired_keys (d : gmap TenantKey _pool_connection) t k :
  k ∈ List.map fst
        (List.filter (fun '(_, database_poll) => time_lt (life_time database_poll) t)
           (map_to_list d))
  <-> exists entry, d !! k = Some entry /\ time_lt (life_time entry) t = true.
Proof.
  rewrite list_elem_of_In, in_map_iff. split.
  - intros [[k' entry] [<- Hin]]. apply filter_In in Hin as [Hin Hlt].
    apply list_elem_of_In, elem_of_map_to_list in Hin. eauto.
  - intros (entry & Hk & Hlt). exists (k, entry). split; [done|].
    apply filter_In. split; [|done].
    by apply list_elem_of_In, elem_of_map_to_list.
Qed.

(** What one sweep leaves in the dictionary: exactly the entries whose
    [life_time] is not below the clock reading. *)
Lemma sweep_eq t self :
  exists d,
    sweep t self = (Return tt, set_connections d self) /\
    forall k, d !! k =
              match _connections self !! k with
              | Some entry => if time_lt (life_time entry) t then None else Some entry
              | None => None
              end.
Proof.
  unfold sweep, dict_items. unfold Py.bind at 1. unfold Py.read, Py.ret. simpl.
  rewrite for_each_delitem. eexists. split; [reflexivity|].
  intros k. rewrite lookup_fold_delete.
  destruct (decide _) as [Hin|Hnotin].
  - apply elem_of_expired_keys in Hin as (entry & -> & ->). done.
  - destruct (_connections self !! k) as [entry|] eqn:Hk; [|done].
    destruct (time_lt (life_time entry) t) eqn:Hlt; [|done].
    exfalso. apply Hnotin, elem_of_expired_keys. eauto.
Qed.

Lemma run_nil self : run [] self = (Return tt, self).
Proof. reflexivity. Qed.

Lemma run_cons c history self :
  run (c :: history) self =
  match run_call c self with
  | (Return _, self') => run history self'
  | (Raise e, self') => (Raise e, self')
  end.
Proof. reflexivity. Qed.

Lemma run_app h1 h2 self :
  run (h1 ++ h2) self =
  match run h1 self with
  | (Return _, self') => run h2 self'
  | (Raise e, self') => (Raise e, self')
  end.
Proof.
  revert self. induction h1 as [|c h1 IH]; intros self.
  - reflexivity.
  - rewrite <- app_comm_cons, !run_cons.
    destruct (run_call c self) as [[[]|e] self']; [apply IH | done].
Qed.

(** A history made of reads returns and leaves the cache as it was. *)
Lemma run_reads reads self :
  forallb is_get reads = true -> run reads self = (Return tt, self).
Proof.
  revert self. induction reads as [|c reads IH]; intros self Hreads; [done|].
  simpl in Hreads. apply andb_true_iff in Hreads as [Hc Hreads].
  destruct c; try discriminate.
  rewrite run_cons. unfold run_call, Py.bind. rewrite get_eq. by apply IH.
Qed.

End CacheFacts.

(** ** The cache: insertion, expiry and reads *)

Section CacheClaims.

Import DbCacher Samples.

Implicit Types (self : IndividualTTLCache) (k : TenantKey) (pool : Engine).

(** What [__setitem__] stores, for every cache: the pool together with the
    clock reading itself.  [_default_ttl] is not read. *)
Lemma setitem_lookup self k pool (now : Q) :
  _connections (Py.final (__setitem__ k pool now) self) !! k
  = Some {| db_pool := pool; life_time := now |}.
Proof.
  unfold Py.final. rewrite setitem_eq. simpl. apply lookup_insert_eq.
Qed.

(** C1, evaluated on the code: in a cache built with the default
    [default_ttl] of 900, inserting "tenantA" when the clock reads 100 stores
    the expiry time 100, which is not 100 + 900. *)
Theorem setitem_expiry_without_ttl :
  life_time <$>
    (_connections (Py.final (__setitem__ (KStr "tenantA") poolX 100) default_cache)
       !! KStr "tenantA") = Some 100%Q
  /\ _default_ttl default_cache = 900
  /\ ~ (100 == 100 + inject_Z (_default_ttl default_cache))%Q.
Proof.
  split; [by rewrite setitem_lookup|]. split; [reflexivity|].
  vm_compute. discriminate.
Qed.

(** A read right after an insertion returns the inserted pool. *)
Lemma get_after_setitem self k pool (now : Q) :
  Py.result (__setitem__ k pool now ;;; get k)%py self = Return (Some pool).
Proof.
  unfold Py.result, Py.bind. rewrite setitem_eq, get_eq. simpl.
  by rewrite lookup_insert_eq.
Qed.

(** The part of the cache-correctness property the code does keep: the
    entry stays, and reads return the pool, through every call that does not
    overwrite or delete the key and every sweep whose clock reading is not
    above the insertion time. *)
Lemma entry_kept self k (entry : _pool_connection) history :
  _connections self !! k = Some entry ->
  forallb (keeps k (life_time entry)) history = true ->
  exists self',
    run history self = (Return tt, self') /\ _connections self' !! k = Some entry.
Proof.
  revert self. induction history as [|c history IH]; intros self Hk Hkeeps.
  - exists self. by split.
  - simpl in Hkeeps. apply andb_true_iff in Hkeeps as [Hc Hkeeps].
    rewrite run_cons. destruct c as [k'|k' pool' t'|k'|t']; unfold run_call.
    + unfold Py.bind. rewrite get_eq. by apply IH.
    + rewrite setitem_eq. apply IH; [|done]. simpl.
      apply bool_decide_eq_true in Hc. by rewrite lookup_insert_ne.
    + rewrite delitem_eq. apply IH; [|done]. simpl.
      apply bool_decide_eq_true in Hc. by rewrite lookup_delete_ne.
    + destruct (sweep_eq t' self) as (d & -> & Hd). apply IH; [|done]. simpl.
      rewrite Hd, Hk. simpl in Hc. apply Qle_bool_iff, time_lt_false in Hc.
      by rewrite Hc.
Qed.

(** C2, evaluated on the code: default cache ([default_ttl] = 900),
    "tenantA" inserted when the clock reads 0, one sweep when it reads 1.
    The TTL has not elapsed (1 < 0 + 900), yet the sweep removes the entry
    and the read that follows finds nothing. *)
Theorem sweep_before_ttl_evicts :
  Py.result
    (run [CallSet (KStr "tenantA") poolX 0; CallSweep 1] ;;; get (KStr "tenantA"))%py
    default_cache = Return None
  /\ (1 < 0 + inject_Z (_default_ttl default_cache))%Q.
Proof. split; reflexivity. Qed.

(** C3: a key inserted at time [T] into a cache whose [default_ttl] is [D]
    (not negative: the data model has [ttl > 0]) is absent after a sweep that
    runs at [T + D + eps], for every [eps > 0] and whatever reads of whatever
    keys happen between the insertion and the sweep. *)
Theorem absent_after_sweep_past_ttl self k pool (T eps : Q) (reads : list call) :
  0 <= _default_ttl self ->
  (0 < eps)%Q ->
  forallb is_get reads = true ->
  Py.result
    (run (CallSet k pool T :: reads ++ [CallSweep (T + inject_Z (_default_ttl self) + eps)]) ;;;
     get k)%py self = Return None.
Proof.
  intros Httl Heps Hreads.
  assert (Hlt : time_lt T (T + inject_Z (_default_ttl self) + eps) = true).
  { apply time_lt_true. rewrite Zle_Qle in Httl. change (inject_Z 0) with 0%Q in Httl. lra. }
  unfold Py.result, Py.bind.
  rewrite run_cons. unfold run_call. rewrite setitem_eq, run_app, run_reads by done.
  rewrite run_cons. unfold run_call.
  destruct (sweep_eq (T + inject_Z (_default_ttl self) + eps)
              (set_connections (<[k:=mk_pool_connection pool T]> (_connections self)) self))
    as (d & Hsweep & Hd).
  rewrite Hsweep, run_nil, get_eq. cbn [fst].
  rewrite Hd. cbn [_connections set_connections]. rewrite lookup_insert_eq.
  cbn [life_time]. by rewrite Hlt.
Qed.

Lemma absent_after_sweep_past_ttl_witness :
  0 <= _default_ttl short_cache
  /\ (0 < 1 # 5)%Q
  /\ forallb is_get [CallGet (KStr "tenantA"); CallGet (KStr "tenantB")] = true
  /\ Py.result
       (run (CallSet (KStr "tenantA") poolX 0
               :: [CallGet (KStr "tenantA"); CallGet (KStr "tenantB")]
               ++ [CallSweep (0 + inject_Z (_default_ttl short_cache) + (1 # 5))]) ;;;
        get (KStr "tenantA"))%py short_cache = Return None.
Proof.
  split; [vm_compute; discriminate|]. split; [reflexivity|]. split; [reflexivity|].
  apply (absent_after_sweep_past_ttl short_cache (KStr "tenantA") poolX 0 (1 # 5)
           [CallGet (KStr "tenantA"); CallGet (KStr "tenantB")]);
    [vm_compute; discriminate | reflexivity | reflexivity].
Defined.

(** C6: [get] leaves the cache exactly as it was, and so does any number of
    reads; the [life_time] of an entry read many times is still the value
    stored at its insertion, and a sweep after the reads does what it would
    have done without them. *)
Theorem get_has_no_side_effect self k pool (T : Q) (reads : list call) :
  forallb is_get reads = true ->
  Py.final (get k) self = self
  /\ Py.final (run reads) self = self
  /\ life_time <$> (_connections (Py.final (run (CallSet k pool T :: reads)) self) !! k)
     = Some T
  /\ forall t : Q,
       run (CallSet k pool T :: reads ++ [CallSweep t]) self
       = run [CallSet k pool T; CallSweep t] self.
Proof.
  intros Hreads. unfold Py.final. split; [|split; [|split]].
  - by rewrite get_eq.
  - by rewrite run_reads.
  - rewrite run_cons. unfold run_call. rewrite setitem_eq, run_reads by done.
    simpl. by rewrite lookup_insert_eq.
  - intros t. rewrite !run_cons. unfold run_call. rewrite setitem_eq.
    rewrite run_app, run_reads by done. reflexivity.
Qed.

Lemma get_has_no_side_effect_witness :
  forallb is_get [CallGet (KStr "tenantA"); CallGet (KStr "tenantA"); CallGet (KInt 7)] = true
  /\ life_time <$>
       (_connections
          (Py.final
             (run (CallSet (KStr "tenantA") poolX 0
                     :: [CallGet (KStr "tenantA"); CallGet (KStr "tenantA"); CallGet (KInt 7)]))
             default_cache) !! KStr "tenantA") = Some 0%Q.
Proof.
  split; [reflexivity|].
  apply (get_has_no_side_effect default_cache (KStr "tenantA") poolX 0
           [CallGet (KStr "tenantA"); CallGet (KStr "tenantA"); CallGet (KInt 7)]).
  reflexivity.
Defined.

(** C7: [get], [__setitem__] and [__delitem__] return on every cache and
    every key; on a key that is not in the cache [get] returns [None] as an
    ordinary result, and [__delitem__] returns with the cache unchanged. *)
Theorem cache_operations_total self k pool (now : Q) :
  Py.result (get k) self = Return (db_pool <$> _connections self !! k)
  /\ Py.result (__setitem__ k pool now) self = Return tt
  /\ Py.result (__delitem__ k) self = Return tt
  /\ (_connections self !! k = None ->
      get k self = (Return None, self) /\ __delitem__ k self = (Return tt, self)).
Proof.
  unfold Py.result. rewrite get_eq, setitem_eq, delitem_eq.
  do 3 (split; [reflexivity|]). intros Hk. split.
  - by rewrite Hk.
  - by rewrite delete_id, set_connections_same.
Qed.

Lemma cache_operations_total_witness :
  _connections default_cache !! KStr "ghost" = None
  /\ get (KStr "ghost") default_cache = (Return None, default_cache)
  /\ __delitem__ (KStr "ghost") default_cache = (Return tt, default_cache).
Proof.
  split; [reflexivity|].
  apply (cache_operations_total default_cache (KStr "ghost") poolX 0). reflexivity.
Defined.

End CacheClaims.

(** ** Facts about the session factory *)

Section FactoryFacts.

Import DbCacher DbFactory.

Implicit Types (p : Process) (env : Env) (db_name : string).

Lemma process_eta p :
  {| manager := manager p; log := log p; engines := engines p |} = p.
Proof. by destruct p. Qed.

Lemma set_db_cacher_same (m : DatabaseManager) : set_db_cacher (db_cacher m) m = m.
Proof. by destruct m. Qed.

Lemma on_cache_get p k :
  on_cache (DbCacher.get k) p
  = (Return (db_pool <$> _connections (db_cacher (manager p)) !! k), p).
Proof.
  unfold on_cache, Py.zoom. rewrite get_eq.
  unfold set_manager. by rewrite set_db_cacher_same, process_eta.
Qed.

(** The body raises [e] whenever [fails_with] holds. *)
Lemma create_pool_connection_raises env (db_pool : Engine) p e :
  fails_with env db_pool e ->
  _create_pool_connection env db_pool p
  = if Py.is_Exception e
    then (Raise e, {| manager := manager p;
                      log := log p ++ [mkLog ERROR (logged_message e)];
                      engines := engines p |})
    else (Raise e, p).
Proof.
  intros Hfails.
  assert (Hclass : Py.is_Exception e = false -> Py.is_SQLAlchemyError e = false).
  { unfold Py.is_Exception, Py.is_SQLAlchemyError. by destruct (exc_class e). }
  unfold _create_pool_connection, Py.try_except, Py.bind, Sqlalchemy.call,
    logging_error, logged_message, Py.raise, Py.ret, Py.read, Py.write.
  destruct Hfails as [-> | -> -> | -> -> ->]; simpl;
    destruct (Py.is_Exception e); destruct (Py.is_SQLAlchemyError e) eqn:Hsql;
    try reflexivity; by specialize (Hclass eq_refl).
Qed.

Lemma create_pool_connection_returns env (db_pool : Engine) p :
  connect_error env db_pool = None ->
  sessionmaker_error env (mkConnection db_pool) = None ->
  session_error env (mkConnection db_pool) = None ->
  _create_pool_connection env db_pool p
  = (Return (mkSession false false (mkConnection db_pool)), p).
Proof.
  intros Hconnect Hmaker Hsession.
  unfold _create_pool_connection, Py.try_except, Py.bind, Sqlalchemy.call.
  by rewrite Hconnect, Hmaker, Hsession.
Qed.

Lemma fails_or_returns env (db_pool : Engine) :
  (exists e, fails_with env db_pool e)
  \/ (connect_error env db_pool = None
      /\ sessionmaker_error env (mkConnection db_pool) = None
      /\ session_error env (mkConnection db_pool) = None).
Proof.
  destruct (connect_error env db_pool) as [e|] eqn:Hconnect;
    [left; exists e; by apply fails_at_connect|].
  destruct (sessionmaker_error env (mkConnection db_pool)) as [e|] eqn:Hmaker;
    [left; exists e; by apply fails_at_sessionmaker|].
  destruct (session_error env (mkConnection db_pool)) as [e|] eqn:Hsession;
    [left; exists e; by apply fails_at_session|].
  by right.
Qed.

(** [_create_pool_connection] touches nothing but the log. *)
Lemma create_pool_connection_frame env (db_pool : Engine) p :
  exists r records,
    _create_pool_connection env db_pool p
    = (r, {| manager := manager p; log := log p ++ records; engines := engines p |}).
Proof.
  destruct (fails_or_returns env db_pool) as [[e Hfails] | (Hc & Hm & Hs)].
  - rewrite (create_pool_connection_raises env db_pool p e Hfails).
    destruct (Py.is_Exception e).
    + by eexists _, [_].
    + exists (Raise e), []. by rewrite app_nil_r, process_eta.
  - rewrite create_pool_connection_returns by done.
    eexists _, []. by rewrite app_nil_r, process_eta.
Qed.

Lemma create_pool_connection_engines env (db_pool : Engine) p :
  engines (Py.final (_create_pool_connection env db_pool) p) = engines p
  /\ manager (Py.final (_create_pool_connection env db_pool) p) = manager p.
Proof.
  destruct (create_pool_connection_frame env db_pool p) as (r & records & Heq).
  unfold Py.final. by rewrite Heq.
Qed.

Lemma create_session_hit env db_name (now : Q) p (entry : _pool_connection) :
  _connections (db_cacher (manager p)) !! KStr db_name = Some entry ->
  create_session env db_name now p = _create_pool_connection env (db_pool entry) p.
Proof.
  intros Hhit. unfold create_session. unfold Py.bind at 1.
  by rewrite on_cache_get, Hhit.
Qed.

(** The engine a miss builds and the process it leaves before connecting. *)
Lemma create_session_miss env db_name (now : Q) p (rp rr : Z) :
  _connections (db_cacher (manager p)) !! KStr db_name = None ->
  _regular_db_poolsize (manager p) = [rp] ->
  _regular_db_recycle (manager p) = [rr] ->
  let self := manager p in
  let built :=
    mkEngine (length (engines p)) (db_url self ++ "/" ++ db_name)
      (if String.eqb db_name (main_db self) then _main_db_poolsize self else rp)
      (if String.eqb db_name (main_db self) then _main_db_recycle self else rr)
      10 true true in
  create_engine_error env built = None ->
  create_session env db_name now p
  = _create_pool_connection env built
      {| manager :=
           set_db_cacher
             (set_connections
                (<[KStr db_name := mk_pool_connection built now]>
                   (_connections (db_cacher self)))
                (db_cacher self)) self;
         log := log p;
         engines := engines p ++ [built] |}.
Proof.
  intros Hmiss Hrp Hrr self built Hok. subst self. unfold create_session.
  unfold Py.bind at 1. rewrite on_cache_get, Hmiss. cbn [fmap option_fmap option_map].
  unfold Py.bind at 1. unfold Py.read at 1. cbv beta iota. rewrite Hrp, Hrr.
  remember (_create_pool_connection env) as connect eqn:Hconnect.
  unfold create_engine, on_cache, Py.zoom, Py.tuple_getitem, Py.bind, Py.read,
    Py.ret, Py.write, Sqlalchemy.call.
  subst built.
  destruct (String.eqb db_name (main_db (manager p))); cbn [lookup list_lookup];
    rewrite Hok; reflexivity.
Qed.

(** A miss whose [try] body raises: the engine is built and cached, and the
    exception comes out. *)
Lemma create_session_miss_raises env db_name (now : Q) p (rp rr : Z) e :
  _connections (db_cacher (manager p)) !! KStr db_name = None ->
  _regular_db_poolsize (manager p) = [rp] ->
  _regular_db_recycle (manager p) = [rr] ->
  (forall engine, create_engine_error env engine = None) ->
  (forall engine, fails_with env engine e) ->
  exists built records,
    create_session env db_name now p
    = (Raise e,
       {| manager :=
            set_db_cacher
              (set_connections
                 (<[KStr db_name := mk_pool_connection built now]>
                    (_connections (db_cacher (manager p))))
                 (db_cacher (manager p))) (manager p);
          log := log p ++ records;
          engines := engines p ++ [built] |}).
Proof.
  intros Hmiss Hrp Hrr Hok Hfails.
  rewrite (create_session_miss env db_name now p rp rr Hmiss Hrp Hrr) by apply Hok.
  rewrite (create_pool_connection_raises env _ _ e (Hfails _)).
  destruct (Py.is_Exception e).
  - eexists _, [_]. reflexivity.
  - eexists _, []. by rewrite app_nil_r.
Qed.

Lemma builds_with_fields (m : DatabaseManager) (c d : Z) :
  _regular_db_poolsize m = [c] ->
  _regular_db_recycle m = [d] ->
  builds_with m MainTenant pool_size (_main_db_poolsize m)
  /\ builds_with m MainTenant pool_recycle (_main_db_recycle m)
  /\ builds_with m RegularTenant pool_size c
  /\ builds_with m RegularTenant pool_recycle d.
Proof.
  intros Hc Hd.
  assert (Hbuilt : forall env db_name (now : Q) p cache,
             manager p = set_db_cacher cache m ->
             _connections cache !! KStr db_name = None ->
             (forall engine, create_engine_error env engine = None) ->
             exists built,
               engines (Py.final (create_session env db_name now) p) = engines p ++ [built]
               /\ pool_size built
                  = (if String.eqb db_name (main_db m) then _main_db_poolsize m else c)
               /\ pool_recycle built
                  = (if String.eqb db_name (main_db m) then _main_db_recycle m else d)).
  { intros env db_name now p cache Hp Hmiss Hok.
    assert (Hmiss' : _connections (db_cacher (manager p)) !! KStr db_name = None)
      by by rewrite Hp.
    assert (Hc' : _regular_db_poolsize (manager p) = [c]) by by rewrite Hp.
    assert (Hd' : _regular_db_recycle (manager p) = [d]) by by rewrite Hp.
    eexists. unfold Py.final.
    rewrite (create_session_miss env db_name now p c d Hmiss' Hc' Hd') by apply Hok.
    match goal with
    | |- context [_create_pool_connection ?e ?b ?q] =>
        destruct (create_pool_connection_frame e b q) as (r & records & ->)
    end.
    split; [reflexivity|]. by rewrite Hp. }
  unfold builds_with, class_of.
  repeat apply conj; intros env db_name now p cache Hp Hcls Hmiss Hok;
    destruct (Hbuilt env db_name now p cache Hp Hmiss Hok) as (built & Heng & Hsize & Hrec);
    exists built; (split; [exact Heng|]);
    destruct (String.eqb db_name (main_db m)); done.
Qed.

End FactoryFacts.

(** ** The constructor of the manager *)

Section ConstructorFacts.

Import DbFactory.

Lemma or_else_truthy (v : int_or_none) (rhs : outcome Z) n :
  v = Some n -> n <> 0 -> Py.or_else v rhs = Return n.
Proof.
  intros -> Hn. unfold Py.or_else, Py.truthy.
  by rewrite (proj2 (Z.eqb_neq n 0) Hn).
Qed.

Lemma or_else_falsy (v : int_or_none) (rhs : outcome Z) :
  Py.truthy v = false -> Py.or_else v rhs = rhs.
Proof.
  intros Hv. unfold Py.or_else. destruct v as [n|]; [by rewrite Hv | done].
Qed.

Lemma or_else_nonzero (v : int_or_none) (d x : Z) :
  d <> 0 -> Py.or_else v (Return d) = Return x -> x <> 0.
Proof.
  intros Hd. unfold Py.or_else, Py.truthy. destruct v as [n|].
  - destruct (Z.eqb_spec n 0); simpl; congruence.
  - congruence.
Qed.

(** What a constructor call that returns has computed. *)
Lemma init_returns main url (mp mr rp rr : option int_or_none) (m : DatabaseManager) :
  __init__ main url mp mr rp rr = Return m ->
  exists a b c d,
    Py.or_else (Py.arg (Some 15) mp) (Return 15) = Return a
    /\ Py.or_else (Py.arg (Some 900) mr) (Return 900) = Return b
    /\ Py.or_else (Py.arg (Some 5) rp) (Py.int_truediv3 (Py.arg (Some 15) mp)) = Return c
    /\ Py.or_else (Py.arg (Some 300) rr) (Py.int_truediv3 (Py.arg (Some 900) mr)) = Return d
    /\ m = {| db_cacher := DbCacher.__init__ None None;
              main_db := main;
              db_url := url;
              _main_db_poolsize := a;
              _main_db_recycle := b;
              _regular_db_poolsize := [c];
              _regular_db_recycle := [d] |}.
Proof.
  unfold __init__, Py.and_then.
  destruct (Py.or_else (Py.arg (Some 15) mp) (Return 15)) as [a|]; [|done].
  destruct (Py.or_else (Py.arg (Some 900) mr) (Return 900)) as [b|]; [|done].
  destruct (Py.or_else (Py.arg (Some 5) rp) _) as [c|]; [|done].
  destruct (Py.or_else (Py.arg (Some 300) rr) _) as [d|]; [|done].
  intros [= <-]. by exists a, b, c, d.
Qed.

(** *** The float division [int(v / 3)] *)

(** Scaled by a power of two [P >= 2], the rounded third of [a] lies in
    the same unit interval as the exact third: rounding cannot carry it to
    the next integer. *)
Lemma round_half_even_third (a P : Z) :
  0 <= a -> 2 <= P -> Py.round_half_even (a * P) 3 / P = a / 3.
Proof.
  intros Ha HP. unfold Py.round_half_even.
  pose proof (Z.div_mod (a * P) 3 ltac:(lia)) as Hnum.
  pose proof (Z.mod_pos_bound (a * P) 3 ltac:(lia)) as Hrho.
  pose proof (Z.div_mod a 3 ltac:(lia)) as Ha3.
  pose proof (Z.mod_pos_bound a 3 ltac:(lia)) as Hr.
  set (f := a * P / 3) in *. set (rho := (a * P) mod 3) in *.
  set (q := a / 3) in *. set (r := a mod 3) in *.
  assert (Hprod : a * P = 3 * (q * P) + r * P) by (rewrite Ha3 at 1; ring).
  symmetry.
  destruct (2 * rho <? 3) eqn:Hlow; [|destruct (3 <? 2 * rho) eqn:Hhigh].
  - apply (Z.div_unique _ _ _ (f - q * P)); [|ring]. left. nia.
  - apply (Z.div_unique _ _ _ (f + 1 - q * P)); [|ring]. left.
    apply Z.ltb_lt in Hhigh. assert (Hrho2 : rho = 2) by lia.
    assert (r = 0 \/ r = 1 \/ r = 2) as [Hr0 | [Hr1 | Hr2]] by lia; nia.
  - apply Z.ltb_ge in Hlow, Hhigh. lia.
Qed.

(** Under [3 * 2^52] the float third has a negative exponent: it still
    carries fraction bits. *)
Lemma float_third_exponent (a : Z) :
  0 < a -> a < 3 * 2 ^ 52 -> snd (Py.float_third a) < 0.
Proof.
  intros Hpos Hbound. unfold Py.float_third. cbn [snd].
  destruct (Z.log2_spec a Hpos) as [Hlow Hhigh].
  pose proof (Z.log2_nonneg a) as Hl.
  set (l := Z.log2 a) in *.
  assert (Hl53 : l <= 53).
  { destruct (Z_le_gt_dec l 53) as [Hle|Hgt]; [exact Hle|exfalso].
    assert (2 ^ 54 <= 2 ^ l) by (apply Z.pow_le_mono_r; lia).
    change (2 ^ 54) with 18014398509481984 in *.
    change (2 ^ 52) with 4503599627370496 in *. lia. }
  destruct (3 * 2 ^ (l + 1) <=? 4 * a) eqn:Hk; [|lia].
  apply Z.leb_le in Hk.
  destruct (Z_le_gt_dec l 52) as [Hle|Hgt]; [lia|exfalso].
  assert (2 ^ 54 <= 2 ^ (l + 1)) by (apply Z.pow_le_mono_r; lia).
  change (2 ^ 54) with 18014398509481984 in *.
  change (2 ^ 52) with 4503599627370496 in *. lia.
Qed.

(** For an integer of magnitude under [3 * 2^52], [int(n / 3)] returns the
    integer quotient truncated toward zero. *)
Lemma int_truediv3_exact (n : Z) :
  Z.abs n < 3 * 2 ^ 52 -> Py.int_truediv3 (Some n) = Return (Z.quot n 3).
Proof.
  intros Hbound. unfold Py.int_truediv3.
  destruct (Z.eqb_spec n 0) as [->|Hn]; [reflexivity|].
  assert (Hpos : 0 < Z.abs n) by lia.
  pose proof (float_third_exponent (Z.abs n) Hpos Hbound) as He.
  unfold Py.float_third in *. cbn [snd] in He.
  set (e := (if 3 * 2 ^ (Z.log2 (Z.abs n) + 1) <=? 4 * Z.abs n
             then Z.log2 (Z.abs n) - 1 else Z.log2 (Z.abs n) - 2) - 52) in *.
  assert (Hneg : (0 <=? e) = false) by (apply Z.leb_gt; lia).
  rewrite Hneg. cbn [andb].
  assert (HP : 2 <= 2 ^ (- e)).
  { change 2 with (2 ^ 1) at 1. apply Z.pow_le_mono_r; lia. }
  rewrite round_half_even_third by lia.
  f_equal. rewrite (Z.quot_div n 3) by lia.
  change (Z.sgn 3) with 1. change (Z.abs 3) with 3. ring.
Qed.

(** Above that bound the float shows: the quotient of [3 * 2^52 + 2] is
    rounded up, the one of [27021597764222979] down to an even mantissa, and
    [10^400 / 3] fits no double. *)
Example int_truediv3_rounds_up :
  Py.int_truediv3 (Some 13510798882111490) = Return 4503599627370497
  /\ Z.quot 13510798882111490 3 = 4503599627370496.
Proof. split; vm_compute; reflexivity. Qed.

Example int_truediv3_rounds_to_even :
  Py.int_truediv3 (Some 27021597764222979) = Return 9007199254740992
  /\ Z.quot 27021597764222979 3 = 9007199254740993.
Proof. split; vm_compute; reflexivity. Qed.

Example int_truediv3_overflows :
  Py.int_truediv3 (Some (10 ^ 400))
  = Raise (mkExc OverflowError "integer division result too large for a float").
Proof. vm_compute. reflexivity. Qed.

(** *** The constructor *)

(** The manager the constructor returns, from the values of its four [or]
    expressions. *)
Lemma init_of_parts main url (mp mr rp rr : option int_or_none) (a b c d : Z) :
  Py.or_else (Py.arg (Some 15) mp) (Return 15) = Return a ->
  Py.or_else (Py.arg (Some 900) mr) (Return 900) = Return b ->
  Py.or_else (Py.arg (Some 5) rp) (Py.int_truediv3 (Py.arg (Some 15) mp)) = Return c ->
  Py.or_else (Py.arg (Some 300) rr) (Py.int_truediv3 (Py.arg (Some 900) mr)) = Return d ->
  __init__ main url mp mr rp rr
  = Return {| db_cacher := DbCacher.__init__ None None;
              main_db := main;
              db_url := url;
              _main_db_poolsize := a;
              _main_db_recycle := b;
              _regular_db_poolsize := [c];
              _regular_db_recycle := [d] |}.
Proof.
  intros Ha Hb Hc Hd. unfold __init__. cbv zeta.
  by rewrite Ha, Hb, Hc, Hd.
Qed.

Lemma or_else_value (v : int_or_none) (q : Z) :
  Py.or_else v (Return q)
  = Return match v with
           | Some n => if n =? 0 then q else n
           | None => q
           end.
Proof.
  unfold Py.or_else, Py.truthy. destruct v as [n|]; [|done]. by destruct (n =? 0).
Qed.

(** With integer main values of magnitude under [3 * 2^52] (passed, or the
    defaults 15 and 900) the constructor returns, whatever the regular
    arguments are, and this is the manager it returns. *)
Lemma init_eq main url (mp mr rp rr : option int_or_none) (a b : Z) :
  Py.arg (Some 15) mp = Some a ->
  Py.arg (Some 900) mr = Some b ->
  Z.abs a < 3 * 2 ^ 52 ->
  Z.abs b < 3 * 2 ^ 52 ->
  __init__ main url mp mr rp rr
  = Return {| db_cacher := DbCacher.__init__ None None;
              main_db := main;
              db_url := url;
              _main_db_poolsize := if a =? 0 then 15 else a;
              _main_db_recycle := if b =? 0 then 900 else b;
              _regular_db_poolsize :=
                [match Py.arg (Some 5) rp with
                 | Some n => if n =? 0 then Z.quot a 3 else n
                 | None => Z.quot a 3
                 end];
              _regular_db_recycle :=
                [match Py.arg (Some 300) rr with
                 | Some n => if n =? 0 then Z.quot b 3 else n
                 | None => Z.quot b 3
                 end] |}.
Proof.
  intros Ha Hb Hasmall Hbsmall. apply init_of_parts.
  - rewrite Ha. apply or_else_value.
  - rewrite Hb. apply or_else_value.
  - rewrite Ha, (int_truediv3_exact a Hasmall). apply or_else_value.
  - rewrite Hb, (int_truediv3_exact b Hbsmall). apply or_else_value.
Qed.

End ConstructorFacts.

(** ** The session factory: sizing, policy selection and errors *)

Section FactoryClaims.

Import DbCacher DbFactory Samples.

Implicit Types (p : Process) (env : Env) (db_name : string).

(** C4 as stated fails: [DatabaseManager("main", url, main_db_poolsize=30,
    main_db_recycle=1800)], with the two regular arguments left out, builds
    the pool of "tenant7" with [pool_size] 5 and [pool_recycle] 300, not
    30/3 = 10 and 1800/3 = 600; and the attribute [_regular_db_poolsize]
    holds the one-element tuple [(5,)]. *)
Lemma regular_default_is_not_a_third :
  exists m built,
    __init__ "main" "postgresql://host" (Some (Some 30)) (Some (Some 1800)) None None
    = Return m
    /\ engines (Py.final (create_session healthy "tenant7" 0) (start m)) = [built]
    /\ pool_size built = 5 /\ pool_size built <> Z.quot 30 3
    /\ pool_recycle built = 300 /\ pool_recycle built <> Z.quot 1800 3
    /\ _regular_db_poolsize m = [5].
Proof.
  eexists _, _. split; [reflexivity|]. split; [vm_compute; reflexivity|].
  split; [reflexivity|]. split; [discriminate|].
  split; [reflexivity|]. split; [discriminate|]. reflexivity.
Qed.

(** C4, amended: with integer main values [a] and [b] (passed, or the
    defaults) of magnitude under [3 * 2^52], a manager constructed without
    [regular_db_poolsize] (resp. [regular_db_recycle]) builds the pools of
    non-main tenants with the declared default 5 (resp. 300), whatever [a]
    and [b] are; it builds them with [a / 3] (resp. [b / 3]) truncated when
    the argument is passed as [None] or 0.  In each case the constructor
    returns. *)
Theorem regular_policy_of_constructor main url (mp mr : option int_or_none) (a b : Z) :
  Py.arg (Some 15) mp = Some a ->
  Py.arg (Some 900) mr = Some b ->
  Z.abs a < 3 * 2 ^ 52 ->
  Z.abs b < 3 * 2 ^ 52 ->
  (forall rr, exists m,
      __init__ main url mp mr None rr = Return m
      /\ builds_with m RegularTenant pool_size 5)
  /\ (forall rp, exists m,
        __init__ main url mp mr rp None = Return m
        /\ builds_with m RegularTenant pool_recycle 300)
  /\ (forall v rr, Py.truthy v = false -> exists m,
        __init__ main url mp mr (Some v) rr = Return m
        /\ builds_with m RegularTenant pool_size (Z.quot a 3))
  /\ (forall v rp, Py.truthy v = false -> exists m,
        __init__ main url mp mr rp (Some v) = Return m
        /\ builds_with m RegularTenant pool_recycle (Z.quot b 3)).
Proof.
  intros Ha Hb Hasmall Hbsmall.
  assert (Hfalsy : forall v, Py.truthy v = false ->
            forall q, match v with
                      | Some n => if n =? 0 then q else n
                      | None => q
                      end = q).
  { intros [n|] Hv q; [|done]. simpl in Hv. apply negb_false_iff in Hv. by rewrite Hv. }
  split; [|split; [|split]].
  - intros rr. eexists. split; [apply (init_eq _ _ _ _ _ _ a b Ha Hb Hasmall Hbsmall)|].
    eapply builds_with_fields; reflexivity.
  - intros rp. eexists. split; [apply (init_eq _ _ _ _ _ _ a b Ha Hb Hasmall Hbsmall)|].
    eapply builds_with_fields; reflexivity.
  - intros v rr Hv. eexists.
    split; [apply (init_eq _ _ _ _ _ _ a b Ha Hb Hasmall Hbsmall)|].
    eapply builds_with_fields; [|reflexivity].
    cbn [_regular_db_poolsize Py.arg]. by rewrite (Hfalsy v Hv).
  - intros v rp Hv. eexists.
    split; [apply (init_eq _ _ _ _ _ _ a b Ha Hb Hasmall Hbsmall)|].
    eapply builds_with_fields; [reflexivity|].
    cbn [_regular_db_recycle Py.arg]. by rewrite (Hfalsy v Hv).
Qed.

Lemma regular_policy_of_constructor_witness :
  Py.arg (Some 15) (Some (Some 30)) = Some 30
  /\ Py.arg (Some 900) (Some (Some 1800)) = Some 1800
  /\ Z.abs 30 < 3 * 2 ^ 52
  /\ Z.abs 1800 < 3 * 2 ^ 52
  /\ Py.truthy None = false
  /\ (exists m,
        __init__ "main" "postgresql://host" (Some (Some 30)) (Some (Some 1800)) None None
        = Return m
        /\ builds_with m RegularTenant pool_size 5)
  /\ (exists m built,
        __init__ "main" "postgresql://host" (Some (Some 30)) (Some (Some 1800))
          (Some None) None
        = Return m
        /\ engines (Py.final (create_session healthy "tenant7" 0) (start m)) = [] ++ [built]
        /\ pool_size built = Z.quot 30 3).
Proof.
  do 5 (split; [reflexivity|]).
  pose proof (regular_policy_of_constructor "main" "postgresql://host"
                (Some (Some 30)) (Some (Some 1800)) 30 1800 eq_refl eq_refl
                eq_refl eq_refl)
    as (Homitted & _ & Hfallback & _).
  split; [exact (Homitted None)|].
  destruct (Hfallback None None eq_refl) as (m & Hm & Hbuilds).
  exists m.
  destruct (Hbuilds healthy "tenant7" 0%Q (start m) (db_cacher m)) as (built & Hbuilt);
    try (injection Hm as <-; reflexivity).
  exists built. by split.
Defined.

(** C5: on every process (whatever keys were seen before), a
    [create_session] that misses the cache builds the pool with
    [_main_db_poolsize] and [_main_db_recycle] when the key is equal to
    [main_db], and with the regular values when it is different; equality
    of strings is the only test. *)
Theorem policy_by_exact_equality env db_name (now : Q) p (rp rr : Z) :
  _connections (db_cacher (manager p)) !! KStr db_name = None ->
  _regular_db_poolsize (manager p) = [rp] ->
  _regular_db_recycle (manager p) = [rr] ->
  (forall engine, create_engine_error env engine = None) ->
  exists built,
    engines (Py.final (create_session env db_name now) p) = engines p ++ [built]
    /\ (db_name = main_db (manager p) ->
        pool_size built = _main_db_poolsize (manager p)
        /\ pool_recycle built = _main_db_recycle (manager p))
    /\ (db_name <> main_db (manager p) ->
        pool_size built = rp /\ pool_recycle built = rr).
Proof.
  intros Hmiss Hrp Hrr Hok. eexists. unfold Py.final.
  rewrite (create_session_miss env db_name now p rp rr Hmiss Hrp Hrr) by apply Hok.
  match goal with
  | |- context [_create_pool_connection ?e ?b ?q] =>
      destruct (create_pool_connection_frame e b q) as (r & records & ->)
  end.
  split; [reflexivity|]. cbn [pool_size pool_recycle]. split.
  - intros Heq. apply String.eqb_eq in Heq. by rewrite Heq.
  - intros Hne. apply String.eqb_neq in Hne. by rewrite Hne.
Qed.

Lemma policy_by_exact_equality_witness :
  _connections (db_cacher (manager (start default_manager))) !! KStr "Main" = None
  /\ _regular_db_poolsize (manager (start default_manager)) = [5]
  /\ _regular_db_recycle (manager (start default_manager)) = [300]
  /\ (forall engine, create_engine_error healthy engine = None)
  /\ exists built,
       engines (Py.final (create_session healthy "Main" 0) (start default_manager))
       = engines (start default_manager) ++ [built]
       /\ ("Main" = main_db (manager (start default_manager)) ->
           pool_size built = 15 /\ pool_recycle built = 900)
       /\ ("Main" <> main_db (manager (start default_manager)) ->
           pool_size built = 5 /\ pool_recycle built = 300).
Proof.
  split; [reflexivity|]. split; [reflexivity|]. split; [reflexivity|].
  split; [reflexivity|].
  apply (policy_by_exact_equality healthy "Main" 0 (start default_manager) 5 300);
    reflexivity.
Defined.

(** C8: when the [try] body of [_create_pool_connection] raises [e], a
    SQLAlchemy error or any other [Exception], the method logs exactly one
    record, at level ERROR, and raises the same [e]; the manager, its cache
    and the list of engines are as before (no other pool is built and
    nothing is tried again). *)
Theorem errors_logged_and_reraised env (db_pool : Engine) p e :
  fails_with env db_pool e ->
  Py.is_Exception e = true ->
  _create_pool_connection env db_pool p
  = (Raise e,
     {| manager := manager p;
        log := log p ++ [mkLog ERROR (logged_message e)];
        engines := engines p |}).
Proof.
  intros Hfails Hexc.
  by rewrite (create_pool_connection_raises env db_pool p e Hfails), Hexc.
Qed.

Lemma errors_logged_and_reraised_witness :
  fails_with refusing poolX (mkExc SQLAlchemyError "connection refused")
  /\ Py.is_Exception (mkExc SQLAlchemyError "connection refused") = true
  /\ _create_pool_connection refusing poolX (start default_manager)
     = (Raise (mkExc SQLAlchemyError "connection refused"),
        {| manager := default_manager;
           log := [mkLog ERROR
                     "error while creating database connection from pool: connection refused"];
           engines := [] |}).
Proof.
  split; [by apply fails_at_connect|]. split; [reflexivity|].
  apply (errors_logged_and_reraised refusing poolX (start default_manager)
           (mkExc SQLAlchemyError "connection refused"));
    [by apply fails_at_connect | reflexivity].
Defined.

(** C9 as stated fails: [DatabaseManager("main", url, main_db_poolsize=2,
    regular_db_poolsize=0)] builds the pool of "tenant7" with [pool_size] 0. *)
Lemma zero_sized_regular_pool :
  exists m built,
    __init__ "main" "postgresql://host" (Some (Some 2)) None (Some (Some 0)) None
    = Return m
    /\ engines (Py.final (create_session healthy "tenant7" 0) (start m)) = [built]
    /\ pool_size built = 0.
Proof.
  eexists _, _. split; [reflexivity|]. split; [vm_compute; reflexivity|]. reflexivity.
Qed.

(** C9, amended: with integer main values [a] and [b] (passed, or the
    defaults) of magnitude under [3 * 2^52], passing 0 for
    [main_db_poolsize] (resp. [main_db_recycle])
    makes the manager build the main pool with 15 (resp. 900); passing 0 for
    [regular_db_poolsize] (resp. [regular_db_recycle]) makes it build the
    regular pools with the [main_db_poolsize] (resp. [main_db_recycle])
    argument as passed, divided by 3 and truncated; the main pool size and
    recycle time are never 0, and the regular fallback [a / 3] is 0 exactly
    when [a] is strictly between -3 and 3. *)
Theorem zero_arguments_are_unset main url (mp mr rp rr : option int_or_none) (a b : Z) :
  Py.arg (Some 15) mp = Some a ->
  Py.arg (Some 900) mr = Some b ->
  Z.abs a < 3 * 2 ^ 52 ->
  Z.abs b < 3 * 2 ^ 52 ->
  (exists m,
      __init__ main url (Some (Some 0)) mr rp rr = Return m
      /\ builds_with m MainTenant pool_size 15)
  /\ (exists m,
        __init__ main url mp (Some (Some 0)) rp rr = Return m
        /\ builds_with m MainTenant pool_recycle 900)
  /\ (exists m,
        __init__ main url mp mr (Some (Some 0)) rr = Return m
        /\ builds_with m RegularTenant pool_size (Z.quot a 3))
  /\ (exists m,
        __init__ main url mp mr rp (Some (Some 0)) = Return m
        /\ builds_with m RegularTenant pool_recycle (Z.quot b 3))
  /\ (exists m size recycle,
        __init__ main url mp mr rp rr = Return m
        /\ builds_with m MainTenant pool_size size
        /\ builds_with m MainTenant pool_recycle recycle
        /\ size <> 0 /\ recycle <> 0)
  /\ (Z.quot a 3 = 0 <-> -3 < a < 3).
Proof.
  intros Ha Hb Hasmall Hbsmall. split; [|split; [|split; [|split; [|split]]]].
  - eexists.
    split; [apply (init_eq main url (Some (Some 0)) mr rp rr 0 b eq_refl Hb eq_refl Hbsmall)|].
    eapply builds_with_fields; reflexivity.
  - eexists.
    split; [apply (init_eq main url mp (Some (Some 0)) rp rr a 0 Ha eq_refl Hasmall eq_refl)|].
    eapply builds_with_fields; reflexivity.
  - eexists. split; [apply (init_eq _ _ _ _ _ _ a b Ha Hb Hasmall Hbsmall)|].
    eapply builds_with_fields; reflexivity.
  - eexists. split; [apply (init_eq _ _ _ _ _ _ a b Ha Hb Hasmall Hbsmall)|].
    eapply builds_with_fields; reflexivity.
  - eexists _, _, _. split; [apply (init_eq _ _ _ _ _ _ a b Ha Hb Hasmall Hbsmall)|].
    split; [eapply builds_with_fields; reflexivity|].
    split; [eapply builds_with_fields; reflexivity|].
    cbn [_main_db_poolsize _main_db_recycle].
    split; [destruct (Z.eqb_spec a 0) | destruct (Z.eqb_spec b 0)]; lia.
  - rewrite Z.quot_small_iff by lia. lia.
Qed.

Lemma zero_arguments_are_unset_witness :
  Py.arg (Some 15) (Some (Some 2)) = Some 2
  /\ Py.arg (Some 900) None = Some 900
  /\ Z.abs 2 < 3 * 2 ^ 52
  /\ Z.abs 900 < 3 * 2 ^ 52
  /\ (exists m,
        __init__ "main" "postgresql://host" (Some (Some 0)) None (Some (Some 0)) None
        = Return m
        /\ builds_with m MainTenant pool_size 15)
  /\ (exists m built,
        __init__ "main" "postgresql://host" (Some (Some 2)) None (Some (Some 0)) None
        = Return m
        /\ engines (Py.final (create_session healthy "tenant7" 0) (start m)) = [] ++ [built]
        /\ pool_size built = Z.quot 2 3).
Proof.
  do 4 (split; [reflexivity|]).
  pose proof (zero_arguments_are_unset "main" "postgresql://host"
                (Some (Some 2)) None (Some (Some 0)) None 2 900 eq_refl eq_refl
                eq_refl eq_refl)
    as (Hmain & _ & Hregular & _).
  split; [exact Hmain|].
  destruct Hregular as (m & Hm & Hbuilds).
  exists m.
  destruct (Hbuilds healthy "tenant7" 0%Q (start m) (db_cacher m)) as (built & Hbuilt);
    try (injection Hm as <-; reflexivity).
  exists built. by split.
Defined.

(** C10: when [create_session] misses the cache, builds the pool and the
    [try] body then raises [e], the call raises [e] and leaves the new pool
    in the cache under the key, with the clock reading of the insertion; a
    following [create_session] for the same key goes straight to
    [_create_pool_connection] with that pool and builds no engine. *)
Theorem pool_cached_before_connect env db_name (now : Q) p (rp rr : Z) e :
  _connections (db_cacher (manager p)) !! KStr db_name = None ->
  _regular_db_poolsize (manager p) = [rp] ->
  _regular_db_recycle (manager p) = [rr] ->
  (forall engine, create_engine_error env engine = None) ->
  (forall engine, fails_with env engine e) ->
  exists built,
    Py.result (create_session env db_name now) p = Raise e
    /\ engines (Py.final (create_session env db_name now) p) = engines p ++ [built]
    /\ _connections (db_cacher (manager (Py.final (create_session env db_name now) p)))
         !! KStr db_name
       = Some {| db_pool := built; life_time := now |}
    /\ forall env' (now' : Q),
         create_session env' db_name now' (Py.final (create_session env db_name now) p)
         = _create_pool_connection env' built (Py.final (create_session env db_name now) p)
         /\ engines
              (Py.final (create_session env' db_name now')
                 (Py.final (create_session env db_name now) p))
            = engines p ++ [built].
Proof.
  intros Hmiss Hrp Hrr Hok Hfails.
  destruct (create_session_miss_raises env db_name now p rp rr e Hmiss Hrp Hrr Hok Hfails)
    as (built & records & Hfirst).
  exists built. unfold Py.result, Py.final. rewrite Hfirst. cbn [fst snd engines manager].
  split; [reflexivity|]. split; [reflexivity|].
  split; [cbn; apply lookup_insert_eq|].
  intros env' now'.
  match goal with
  | |- context [create_session env' db_name now' ?q] =>
      assert (Hhit : create_session env' db_name now' q
                     = _create_pool_connection env' built q)
        by (apply (create_session_hit env' db_name now' q
                     {| db_pool := built; life_time := now |});
            cbn; apply lookup_insert_eq)
  end.
  split; [exact Hhit|]. rewrite Hhit.
  apply create_pool_connection_engines.
Qed.

Lemma pool_cached_before_connect_witness :
  _connections (db_cacher (manager (start default_manager))) !! KStr "tenant7" = None
  /\ (forall engine, create_engine_error refusing engine = None)
  /\ (forall engine,
        fails_with refusing engine (mkExc SQLAlchemyError "connection refused"))
  /\ exists built,
       Py.result (create_session refusing "tenant7" 0) (start default_manager)
       = Raise (mkExc SQLAlchemyError "connection refused")
       /\ engines (Py.final (create_session refusing "tenant7" 0) (start default_manager))
          = [] ++ [built]
       /\ _connections
            (db_cacher
               (manager (Py.final (create_session refusing "tenant7" 0)
                           (start default_manager))))
            !! KStr "tenant7"
          = Some {| db_pool := built; life_time := 0 |}
       /\ engines
            (Py.final (create_session healthy "tenant7" 1)
               (Py.final (create_session refusing "tenant7" 0) (start default_manager)))
          = [] ++ [built].
Proof.
  split; [reflexivity|]. split; [reflexivity|].
  split; [intros engine; by apply fails_at_connect|].
  destruct (pool_cached_before_connect refusing "tenant7" 0 (start default_manager) 5 300
              (mkExc SQLAlchemyError "connection refused")
              eq_refl eq_refl eq_refl (fun _ => eq_refl)
              (fun engine => fails_at_connect refusing engine _ eq_refl))
    as (built & Hraise & Hengines & Hcached & Hnext).
  exists built. split; [exact Hraise|]. split; [exact Hengines|].
  split; [exact Hcached|]. exact (proj2 (Hnext healthy 1%Q)).
Defined.

End FactoryClaims.

(** ** More on the cache: sweeps, capacity and histories *)

Section CacheSweeps.

Import DbCacher Samples.

Implicit Types (self : IndividualTTLCache) (k : TenantKey) (pool : Engine).

Lemma cleanup_cons (t : Q) (clock : list Q) self :
  cleanup_expired_items (t :: clock) self =
  match sweep t self with
  | (Return _, self') => cleanup_expired_items clock self'
  | (Raise e, self') => (Raise e, self')
  end.
Proof. reflexivity. Qed.

Lemma kept_by_sweep (d : gmap TenantKey _pool_connection) (t : Q) k entry :
  match d !! k with
  | Some entry' => if time_lt (life_time entry') t then None else Some entry'
  | None => None
  end = Some entry
  <-> d !! k = Some entry /\ (t <= life_time entry)%Q.
Proof.
  destruct (d !! k) as [entry'|]; [|by split; [|intros []]].
  destruct (time_lt (life_time entry') t) eqn:Hlt.
  - split; [done|]. intros [[= ->] Hle]. apply time_lt_false in Hle. congruence.
  - split.
    + intros [= ->]. split; [done|]. by apply time_lt_false.
    + by intros [-> _].
Qed.

(** One sweep returns, and afterwards the cache holds exactly the entries it
    held whose [life_time] is not below the clock reading: an entry stamped
    with the very reading of the sweep stays. *)
Theorem sweep_keeps_exactly_unexpired (t : Q) self k entry :
  Py.result (sweep t) self = Return tt
  /\ (_connections (Py.final (sweep t) self) !! k = Some entry
      <-> _connections self !! k = Some entry /\ (t <= life_time entry)%Q).
Proof.
  destruct (sweep_eq t self) as (d & Heq & Hd).
  unfold Py.result, Py.final. rewrite Heq. split; [reflexivity|].
  cbn [snd _connections set_connections]. rewrite Hd. apply kept_by_sweep.
Qed.

(** The sweeper loop, for any sequence of clock readings, returns from every
    iteration and leaves exactly the entries no reading exceeded. *)
Theorem cleanup_keeps_entries_never_exceeded (clock : list Q) self k entry :
  Py.result (cleanup_expired_items clock) self = Return tt
  /\ (_connections (Py.final (cleanup_expired_items clock) self) !! k = Some entry
      <-> _connections self !! k = Some entry
          /\ Forall (fun t => (t <= life_time entry)%Q) clock).
Proof.
  revert self. induction clock as [|t clock IH]; intros self.
  - split; [reflexivity|]. split; [by intros ? | by intros [? _]].
  - unfold Py.result, Py.final. rewrite cleanup_cons.
    destruct (sweep_eq t self) as (d & -> & Hd).
    destruct (IH (set_connections d self)) as [Hret Hiff].
    split; [exact Hret|].
    unfold Py.final in Hiff. rewrite Hiff. cbn [_connections set_connections].
    rewrite Hd, kept_by_sweep, Forall_cons. tauto.
Qed.

(** A sweep absorbs every earlier sweep at a reading that is not later:
    running both leaves the same cache as running the later one alone. *)
Theorem sweep_absorbs_earlier (t1 t2 : Q) self :
  (t1 <= t2)%Q ->
  Py.final (sweep t1 ;;; sweep t2)%py self = Py.final (sweep t2) self.
Proof.
  intros Hle. unfold Py.final, Py.bind.
  destruct (sweep_eq t1 self) as (d1 & -> & Hd1).
  destruct (sweep_eq t2 (set_connections d1 self)) as (d12 & -> & Hd12).
  destruct (sweep_eq t2 self) as (d2 & -> & Hd2).
  cbn [snd]. rewrite set_connections_twice. f_equal.
  apply map_eq. intros k. rewrite Hd12, Hd2. cbn [_connections set_connections].
  rewrite Hd1. destruct (_connections self !! k) as [entry|]; [|done].
  destruct (time_lt (life_time entry) t1) eqn:Hlt1; [|done].
  apply time_lt_true in Hlt1.
  assert (Hlt2 : time_lt (life_time entry) t2 = true).
  { apply time_lt_true. lra. }
  by rewrite Hlt2.
Qed.

Lemma sweep_absorbs_earlier_witness :
  (1 <= 5)%Q
  /\ Py.final (sweep 1 ;;; sweep 5)%py
       (Py.final (run [CallSet (KStr "a") poolX 0; CallSet (KInt 7) poolX 3;
                       CallSet (KStr "b") poolX 9]) default_cache)
     = Py.final (sweep 5)
         (Py.final (run [CallSet (KStr "a") poolX 0; CallSet (KInt 7) poolX 3;
                         CallSet (KStr "b") poolX 9]) default_cache).
Proof.
  split; [vm_compute; discriminate|].
  apply sweep_absorbs_earlier. vm_compute. discriminate.
Defined.

(** No history of calls makes the cache raise, and none changes [_maxsize]
    or [_default_ttl]: [del] is only ever reached on a key that is present,
    also inside the sweep. *)
Theorem cache_never_raises (history : list call) self :
  exists self',
    run history self = (Return tt, self')
    /\ _maxsize self' = _maxsize self
    /\ _default_ttl self' = _default_ttl self.
Proof.
  revert self. induction history as [|c history IH]; intros self.
  - by exists self.
  - rewrite run_cons.
    assert (Hstep : exists d, run_call c self = (Return tt, set_connections d self)).
    { destruct c as [k|k pool t|k|t]; unfold run_call.
      - exists (_connections self). unfold Py.bind. rewrite get_eq.
        by rewrite set_connections_same.
      - eexists. apply setitem_eq.
      - eexists. apply delitem_eq.
      - destruct (sweep_eq t self) as (d & Heq & _). by exists d. }
    destruct Hstep as (d & ->).
    destruct (IH (set_connections d self)) as (self' & Hrun & Hsize & Httl).
    by exists self'.
Qed.

(** [_maxsize] limits nothing: inserting any number of distinct new keys
    keeps them all, and the cache grows by that number. *)
Theorem setitem_never_evicts (keys : list TenantKey) pool (t : Q) self :
  NoDup keys ->
  (forall k, k ∈ keys -> _connections self !! k = None) ->
  size (_connections (Py.final (run (List.map (fun k => CallSet k pool t) keys)) self))
  = (size (_connections self) + length keys)%nat.
Proof.
  revert self. induction keys as [|k keys IH]; intros self Hnodup Hfresh.
  - cbn. lia.
  - apply NoDup_cons in Hnodup as [Hk Hnodup].
    unfold Py.final. cbn [List.map]. rewrite run_cons. unfold run_call.
    rewrite setitem_eq.
    fold (Py.final (run (List.map (fun k => CallSet k pool t) keys))
            (set_connections (<[k:=mk_pool_connection pool t]> (_connections self)) self)).
    rewrite IH; [| done |].
    + cbn [_connections set_connections length].
      rewrite map_size_insert_None by (apply Hfresh; apply list_elem_of_here). lia.
    + intros k' Hk'. cbn [_connections set_connections].
      rewrite lookup_insert_ne by (intros ->; done).
      apply Hfresh. by apply list_elem_of_further.
Qed.

Lemma setitem_never_evicts_witness :
  NoDup [KStr "a"; KStr "b"; KInt 3]
  /\ (forall k, k ∈ [KStr "a"; KStr "b"; KInt 3] -> _connections tiny_cache !! k = None)
  /\ _maxsize tiny_cache = 2
  /\ size (_connections
             (Py.final
                (run (List.map (fun k => CallSet k poolX 0) [KStr "a"; KStr "b"; KInt 3]))
                tiny_cache))
     = (size (_connections tiny_cache) + 3)%nat.
Proof.
  assert (Hnodup : NoDup [KStr "a"; KStr "b"; KInt 3]).
  { repeat (apply NoDup_cons; split; [rewrite ?elem_of_cons, elem_of_nil; intuition discriminate|]).
    apply NoDup_nil_2. }
  split; [exact Hnodup|]. split; [reflexivity|]. split; [reflexivity|].
  apply (setitem_never_evicts [KStr "a"; KStr "b"; KInt 3] poolX 0 tiny_cache Hnodup).
  reflexivity.
Defined.

(** Inserting a key that was absent and deleting it again gives back the
    cache as it was. *)
Theorem setitem_delitem_round_trip self k pool (t : Q) :
  _connections self !! k = None ->
  run [CallSet k pool t; CallDel k] self = (Return tt, self).
Proof.
  intros Habsent. rewrite run_cons. unfold run_call. rewrite setitem_eq.
  rewrite run_cons. unfold run_call. rewrite delitem_eq, run_nil, set_connections_twice.
  cbn [_connections set_connections].
  by rewrite delete_insert_id, set_connections_same.
Qed.

Lemma setitem_delitem_round_trip_witness :
  _connections default_cache !! KInt 7 = None
  /\ run [CallSet (KInt 7) poolX 0; CallDel (KInt 7)] default_cache
     = (Return tt, default_cache).
Proof.
  split; [reflexivity|].
  apply (setitem_delitem_round_trip default_cache (KInt 7) poolX 0). reflexivity.
Defined.

Lemma entry_kept_witness :
  _connections
    (Py.final (__setitem__ (KStr "tenantA") poolX 5) default_cache) !! KStr "tenantA"
  = Some {| db_pool := poolX; life_time := 5 |}
  /\ forallb (keeps (KStr "tenantA") 5)
       [CallGet (KStr "tenantA"); CallSweep 5; CallSet (KStr "tenantB") poolX 6;
        CallDel (KInt 1); CallSweep 4] = true
  /\ exists self',
       run [CallGet (KStr "tenantA"); CallSweep 5; CallSet (KStr "tenantB") poolX 6;
            CallDel (KInt 1); CallSweep 4]
         (Py.final (__setitem__ (KStr "tenantA") poolX 5) default_cache)
       = (Return tt, self')
       /\ _connections self' !! KStr "tenantA" = Some {| db_pool := poolX; life_time := 5 |}.
Proof.
  split; [reflexivity|]. split; [reflexivity|].
  apply (entry_kept (Py.final (__setitem__ (KStr "tenantA") poolX 5) default_cache)
           (KStr "tenantA") {| db_pool := poolX; life_time := 5 |}); reflexivity.
Defined.

End CacheSweeps.

(** ** More on the session factory *)

Section FactoryCases.

Import DbCacher DbFactory Samples.

Implicit Types (p : Process) (env : Env) (db_name : string).

Lemma create_pool_connection_return_inv env (db_pool : Engine) p (s : Session) p' :
  _create_pool_connection env db_pool p = (Return s, p') ->
  s = mkSession false false (mkConnection db_pool) /\ p' = p.
Proof.
  destruct (fails_or_returns env db_pool) as [[e Hfails] | (Hc & Hm & Hs)].
  - rewrite (create_pool_connection_raises env db_pool p e Hfails).
    by destruct (Py.is_Exception e).
  - rewrite create_pool_connection_returns by done. by intros [= <- <-].
Qed.

Lemma create_session_miss_unfold env db_name (now : Q) p :
  _connections (db_cacher (manager p)) !! KStr db_name = None ->
  create_session env db_name now p
  = (p0 <- Py.read ;;
     let self := manager p0 in
     pool_size <- (if String.eqb db_name (main_db self)
                   then Py.ret (_main_db_poolsize self)
                   else Py.tuple_getitem (_regular_db_poolsize self) 0) ;;
     pool_recycle <- (if String.eqb db_name (main_db self)
                      then Py.ret (_main_db_recycle self)
                      else Py.tuple_getitem (_regular_db_recycle self) 0) ;;
     db_pool <- create_engine env (db_url self ++ "/" ++ db_name)
                  pool_size pool_recycle 10 true true ;;
     on_cache (DbCacher.__setitem__ (KStr db_name) db_pool now) ;;;
     _create_pool_connection env db_pool)%py p.
Proof.
  intros Hmiss. unfold create_session. unfold Py.bind at 1.
  by rewrite on_cache_get, Hmiss.
Qed.

(** The three ways a call of [create_session] can go: a hit, which goes
    straight to [_create_pool_connection]; a miss that raises before anything
    is stored; a miss that builds an engine, stores it and then connects. *)
Lemma create_session_cases env db_name (now : Q) p :
  (exists entry,
      _connections (db_cacher (manager p)) !! KStr db_name = Some entry
      /\ create_session env db_name now p
         = _create_pool_connection env (db_pool entry) p)
  \/ (_connections (db_cacher (manager p)) !! KStr db_name = None
      /\ exists e, create_session env db_name now p = (Raise e, p))
  \/ (_connections (db_cacher (manager p)) !! KStr db_name = None
      /\ exists built,
           create_session env db_name now p
           = _create_pool_connection env built
               {| manager :=
                    set_db_cacher
                      (set_connections
                         (<[KStr db_name := mk_pool_connection built now]>
                            (_connections (db_cacher (manager p))))
                         (db_cacher (manager p))) (manager p);
                  log := log p;
                  engines := engines p ++ [built] |}).
Proof.
  destruct (_connections (db_cacher (manager p)) !! KStr db_name) as [entry|] eqn:Hlookup.
  { left. exists entry. split; [done|]. by apply create_session_hit. }
  right. rewrite (create_session_miss_unfold env db_name now p Hlookup).
  remember (_create_pool_connection env) as connect eqn:Hconnect.
  unfold create_engine, on_cache, Py.zoom, Py.tuple_getitem, Py.bind, Py.read,
    Py.ret, Py.write, Py.raise, Sqlalchemy.call.
  destruct (String.eqb db_name (main_db (manager p)));
    [| destruct (_regular_db_poolsize (manager p)) as [|rp sizes];
       destruct (_regular_db_recycle (manager p)) as [|rr recycles] ];
    cbn [lookup list_lookup];
    try (left; split; [done|]; eexists; reflexivity);
    match goal with
    | |- context [create_engine_error env ?b] =>
        destruct (create_engine_error env b) as [e|]
    end;
    try (left; split; [done|]; eexists; reflexivity);
    right; (split; [done|]); eexists; reflexivity.
Qed.

End FactoryCases.

Section FactoryExtras.

Import DbCacher DbFactory Samples.

Implicit Types (p : Process) (env : Env) (db_name : string).

(** Whenever [create_session] returns a session, the key is in the cache
    afterwards and the session is bound to a connection of the cached pool,
    with autocommit and autoflush off. *)
Theorem session_is_bound_to_cached_pool env db_name (now : Q) p (s : Session) :
  Py.result (create_session env db_name now) p = Return s ->
  exists entry,
    _connections (db_cacher (manager (Py.final (create_session env db_name now) p)))
      !! KStr db_name = Some entry
    /\ s = mkSession false false (mkConnection (db_pool entry)).
Proof.
  unfold Py.result, Py.final.
  destruct (create_session_cases env db_name now p)
    as [(entry & Hhit & ->) | [(Hmiss & e & ->) | (Hmiss & built & ->)]].
  - destruct (_create_pool_connection env (db_pool entry) p) as [r p'] eqn:Hcall.
    cbn [fst snd]. intros ->.
    apply create_pool_connection_return_inv in Hcall as [-> ->]. by exists entry.
  - discriminate.
  - match goal with
    | |- context [_create_pool_connection env built ?q] =>
        destruct (_create_pool_connection env built q) as [r p'] eqn:Hcall
    end.
    cbn [fst snd]. intros ->.
    apply create_pool_connection_return_inv in Hcall as [-> ->].
    eexists. split; [cbn; apply lookup_insert_eq | reflexivity].
Qed.

Lemma session_is_bound_to_cached_pool_witness :
  Py.result (create_session healthy "tenant7" 3) (start default_manager)
  = Return (mkSession false false
              (mkConnection (mkEngine 0 "postgresql://host/tenant7" 5 300 10 true true)))
  /\ exists entry,
    _connections
      (db_cacher
         (manager (Py.final (create_session healthy "tenant7" 3) (start default_manager))))
      !! KStr "tenant7" = Some entry
    /\ mkSession false false
         (mkConnection (mkEngine 0 "postgresql://host/tenant7" 5 300 10 true true))
       = mkSession false false (mkConnection (db_pool entry)).
Proof.
  split; [reflexivity|].
  apply (session_is_bound_to_cached_pool healthy "tenant7" 3 (start default_manager)).
  reflexivity.
Defined.

(** A cache hit leaves the manager as it is, whatever becomes of the
    connection: the entry keeps its [life_time] (a hit does not renew it) and
    no engine is built. *)
Theorem cache_hit_leaves_manager env db_name (now : Q) p (entry : _pool_connection) :
  _connections (db_cacher (manager p)) !! KStr db_name = Some entry ->
  manager (Py.final (create_session env db_name now) p) = manager p
  /\ engines (Py.final (create_session env db_name now) p) = engines p.
Proof.
  intros Hhit. unfold Py.final. rewrite (create_session_hit env db_name now p entry Hhit).
  destruct (create_pool_connection_frame env (db_pool entry) p) as (r & records & ->).
  by split.
Qed.

Lemma cache_hit_leaves_manager_witness :
  _connections
    (db_cacher
       (manager (Py.final (create_session healthy "tenant7" 0) (start default_manager))))
    !! KStr "tenant7"
  = Some {| db_pool := mkEngine 0 "postgresql://host/tenant7" 5 300 10 true true;
            life_time := 0 |}
  /\ manager
       (Py.final (create_session refusing "tenant7" 50)
          (Py.final (create_session healthy "tenant7" 0) (start default_manager)))
     = manager (Py.final (create_session healthy "tenant7" 0) (start default_manager))
  /\ engines
       (Py.final (create_session refusing "tenant7" 50)
          (Py.final (create_session healthy "tenant7" 0) (start default_manager)))
     = engines (Py.final (create_session healthy "tenant7" 0) (start default_manager)).
Proof.
  split; [reflexivity|].
  apply (cache_hit_leaves_manager refusing "tenant7" 50
           (Py.final (create_session healthy "tenant7" 0) (start default_manager))
           {| db_pool := mkEngine 0 "postgresql://host/tenant7" 5 300 10 true true;
              life_time := 0 |}).
  reflexivity.
Defined.

(** When [create_engine] rejects its arguments, [create_session] raises that
    exception as it is: the call is outside the [try], so nothing is logged,
    and nothing is stored in the cache. *)
Theorem engine_rejection_leaves_no_trace env db_name (now : Q) p (rp rr : Z) e :
  _connections (db_cacher (manager p)) !! KStr db_name = None ->
  _regular_db_poolsize (manager p) = [rp] ->
  _regular_db_recycle (manager p) = [rr] ->
  (forall engine, create_engine_error env engine = Some e) ->
  create_session env db_name now p = (Raise e, p).
Proof.
  intros Hmiss Hrp Hrr Hrejects.
  rewrite (create_session_miss_unfold env db_name now p Hmiss).
  unfold Py.bind at 1. unfold Py.read at 1. cbv beta iota zeta. rewrite Hrp, Hrr.
  unfold create_engine, Py.tuple_getitem, Py.bind, Py.read, Py.ret, Sqlalchemy.call, Py.raise.
  destruct (String.eqb db_name (main_db (manager p))); cbn [lookup list_lookup];
    by rewrite Hrejects.
Qed.

Lemma engine_rejection_leaves_no_trace_witness :
  _connections (db_cacher (manager (start default_manager))) !! KStr "tenant7" = None
  /\ (forall engine,
        create_engine_error rejecting engine
        = Some (mkExc OtherException "Could not parse SQLAlchemy URL"))
  /\ create_session rejecting "tenant7" 0 (start default_manager)
     = (Raise (mkExc OtherException "Could not parse SQLAlchemy URL"),
        start default_manager).
Proof.
  split; [reflexivity|]. split; [reflexivity|].
  apply (engine_rejection_leaves_no_trace rejecting "tenant7" 0 (start default_manager) 5 300);
    reflexivity.
Defined.

(** On a miss the engine is built for the URL [db_url/db_name] with
    [max_overflow] 10, pre-ping and parameter hiding on, and it is stored
    under the key with the clock reading of the call, whatever the connection
    attempt does afterwards. *)
Theorem built_engine_arguments env db_name (now : Q) p (rp rr : Z) :
  _connections (db_cacher (manager p)) !! KStr db_name = None ->
  _regular_db_poolsize (manager p) = [rp] ->
  _regular_db_recycle (manager p) = [rr] ->
  (forall engine, create_engine_error env engine = None) ->
  exists built,
    engines (Py.final (create_session env db_name now) p) = engines p ++ [built]
    /\ url built = (db_url (manager p) ++ "/" ++ db_name)%string
    /\ max_overflow built = 10
    /\ pool_pre_ping built = true
    /\ hide_parameters built = true
    /\ _connections (db_cacher (manager (Py.final (create_session env db_name now) p)))
         !! KStr db_name
       = Some {| db_pool := built; life_time := now |}.
Proof.
  intros Hmiss Hrp Hrr Hok. eexists. unfold Py.final.
  rewrite (create_session_miss env db_name now p rp rr Hmiss Hrp Hrr) by apply Hok.
  match goal with
  | |- context [_create_pool_connection ?e ?b ?q] =>
      destruct (create_pool_connection_frame e b q) as (r & records & ->)
  end.
  cbn [snd engines manager]. split; [reflexivity|].
  do 4 (split; [reflexivity|]). cbn. apply lookup_insert_eq.
Qed.

Lemma built_engine_arguments_witness :
  _connections (db_cacher (manager (start default_manager))) !! KStr "tenant7" = None
  /\ exists built,
       engines (Py.final (create_session refusing "tenant7" 4) (start default_manager))
       = [] ++ [built]
       /\ url built = "postgresql://host/tenant7"
       /\ max_overflow built = 10
       /\ pool_pre_ping built = true
       /\ hide_parameters built = true
       /\ _connections
            (db_cacher
               (manager (Py.final (create_session refusing "tenant7" 4)
                           (start default_manager))))
            !! KStr "tenant7"
          = Some {| db_pool := built; life_time := 4 |}.
Proof.
  split; [reflexivity|].
  apply (built_engine_arguments refusing "tenant7" 4 (start default_manager) 5 300);
    reflexivity.
Defined.

(** An exception raised in the [try] body that is not an instance of
    [Exception] matches neither [except] clause: it leaves
    [_create_pool_connection] with no record logged. *)
Theorem non_exception_is_not_logged env (db_pool : Engine) p e :
  fails_with env db_pool e ->
  Py.is_Exception e = false ->
  _create_pool_connection env db_pool p = (Raise e, p).
Proof.
  intros Hfails Hclass.
  by rewrite (create_pool_connection_raises env db_pool p e Hfails), Hclass.
Qed.

Lemma non_exception_is_not_logged_witness :
  fails_with interrupting poolX (mkExc BaseExceptionOnly "KeyboardInterrupt")
  /\ Py.is_Exception (mkExc BaseExceptionOnly "KeyboardInterrupt") = false
  /\ _create_pool_connection interrupting poolX (start default_manager)
     = (Raise (mkExc BaseExceptionOnly "KeyboardInterrupt"), start default_manager).
Proof.
  split; [by apply fails_at_connect|]. split; [reflexivity|].
  apply (non_exception_is_not_logged interrupting poolX (start default_manager));
    [by apply fails_at_connect | reflexivity].
Defined.

(** With every library call succeeding, a first [create_session] for a key
    that is not cached builds one engine and returns a session on it; the
    next call for the key returns a session on the same engine and changes
    nothing: no second engine, and the entry keeps the [life_time] of the
    first call. *)
Theorem second_session_reuses_pool env env' db_name (now now' : Q) p (rp rr : Z) :
  _connections (db_cacher (manager p)) !! KStr db_name = None ->
  _regular_db_poolsize (manager p) = [rp] ->
  _regular_db_recycle (manager p) = [rr] ->
  (forall engine, create_engine_error env engine = None) ->
  succeeds env ->
  succeeds env' ->
  exists built,
    Py.result (create_session env db_name now) p
    = Return (mkSession false false (mkConnection built))
    /\ engines (Py.final (create_session env db_name now) p) = engines p ++ [built]
    /\ create_session env' db_name now' (Py.final (create_session env db_name now) p)
       = (Return (mkSession false false (mkConnection built)),
          Py.final (create_session env db_name now) p)
    /\ _connections (db_cacher (manager (Py.final (create_session env db_name now) p)))
         !! KStr db_name
       = Some {| db_pool := built; life_time := now |}.
Proof.
  intros Hmiss Hrp Hrr Hok Henv Henv'. eexists. unfold Py.result, Py.final.
  rewrite (create_session_miss env db_name now p rp rr Hmiss Hrp Hrr) by apply Hok.
  rewrite create_pool_connection_returns by apply Henv.
  cbn [fst snd engines manager].
  split; [reflexivity|]. split; [reflexivity|].
  assert (Hcached : forall b (m : gmap TenantKey _pool_connection),
             <[KStr db_name := mk_pool_connection b now]> m !! KStr db_name
             = Some {| db_pool := b; life_time := now |})
    by (intros; apply lookup_insert_eq).
  split; [|cbn; apply Hcached].
  match goal with
  | |- create_session env' db_name now' ?q = _ =>
      rewrite (create_session_hit env' db_name now' q
                 {| db_pool := _; life_time := now |}) by (cbn; apply Hcached)
  end.
  cbn [DbCacher.db_pool]. by rewrite create_pool_connection_returns by apply Henv'.
Qed.

Lemma second_session_reuses_pool_witness :
  _connections (db_cacher (manager (start default_manager))) !! KStr "main" = None
  /\ succeeds healthy
  /\ exists built,
       Py.result (create_session healthy "main" 0) (start default_manager)
       = Return (mkSession false false (mkConnection built))
       /\ engines (Py.final (create_session healthy "main" 0) (start default_manager))
          = [] ++ [built]
       /\ create_session healthy "main" 30
            (Py.final (create_session healthy "main" 0) (start default_manager))
          = (Return (mkSession false false (mkConnection built)),
             Py.final (create_session healthy "main" 0) (start default_manager))
       /\ _connections
            (db_cacher
               (manager (Py.final (create_session healthy "main" 0)
                           (start default_manager))))
            !! KStr "main"
          = Some {| db_pool := built; life_time := 0 |}.
Proof.
  split; [reflexivity|]. split; [by intros engine|].
  apply (second_session_reuses_pool healthy healthy "main" 0 30 (start default_manager) 5 300);
    try reflexivity; by intros engine.
Defined.

Lemma create_session_miss_state env db_name (now : Q) p (rp rr : Z) :
  _connections (db_cacher (manager p)) !! KStr db_name = None ->
  _regular_db_poolsize (manager p) = [rp] ->
  _regular_db_recycle (manager p) = [rr] ->
  (forall engine, create_engine_error env engine = None) ->
  exists built records,
    engine_id built = length (engines p)
    /\ Py.final (create_session env db_name now) p
       = {| manager :=
              set_db_cacher
                (set_connections
                   (<[KStr db_name := mk_pool_connection built now]>
                      (_connections (db_cacher (manager p))))
                   (db_cacher (manager p))) (manager p);
            log := log p ++ records;
            engines := engines p ++ [built] |}.
Proof.
  intros Hmiss Hrp Hrr Hok. unfold Py.final.
  rewrite (create_session_miss env db_name now p rp rr Hmiss Hrp Hrr) by apply Hok.
  match goal with
  | |- context [_create_pool_connection ?e ?b ?q] =>
      destruct (create_pool_connection_frame e b q) as (r & records & ->)
  end.
  eexists _, records. split; [|reflexivity]. reflexivity.
Qed.

(** A sweep between two requests of the same tenant makes the second one
    build again: the pool built at reading [t0] is gone from the cache after
    a sweep at any later reading, and the next [create_session] for the key
    builds a second, distinct engine and caches that one. *)
Theorem sweep_forces_rebuild env env' db_name (t0 t1 t2 : Q) p (rp rr : Z) :
  _connections (db_cacher (manager p)) !! KStr db_name = None ->
  _regular_db_poolsize (manager p) = [rp] ->
  _regular_db_recycle (manager p) = [rr] ->
  (forall engine, create_engine_error env engine = None) ->
  (forall engine, create_engine_error env' engine = None) ->
  (t0 < t1)%Q ->
  let p1 := Py.final (create_session env db_name t0) p in
  let p2 := Py.final (on_cache (sweep t1)) p1 in
  let p3 := Py.final (create_session env' db_name t2) p2 in
  _connections (db_cacher (manager p2)) !! KStr db_name = None
  /\ exists first second,
       engines p3 = engines p ++ [first; second]
       /\ engine_id first <> engine_id second
       /\ _connections (db_cacher (manager p3)) !! KStr db_name
          = Some {| db_pool := second; life_time := t2 |}.
Proof.
  intros Hmiss Hrp Hrr Hok Hok' Hlt p1 p2 p3.
  destruct (create_session_miss_state env db_name t0 p rp rr Hmiss Hrp Hrr Hok)
    as (first & records & Hid & Hp1).
  fold p1 in Hp1.
  assert (Hp2 : exists d,
             p2 = set_manager (set_db_cacher (set_connections d (db_cacher (manager p1)))
                                 (manager p1)) p1
             /\ d !! KStr db_name = None).
  { subst p2. unfold Py.final, on_cache, Py.zoom.
    destruct (sweep_eq t1 (db_cacher (manager p1))) as (d & -> & Hd).
    exists d. split; [reflexivity|]. rewrite Hd, Hp1. cbn.
    rewrite lookup_insert_eq. cbn.
    by rewrite (proj2 (time_lt_true t0 t1) Hlt). }
  destruct Hp2 as (d & Hp2 & Hgone).
  assert (Hmiss2 : _connections (db_cacher (manager p2)) !! KStr db_name = None)
    by (rewrite Hp2; exact Hgone).
  split; [exact Hmiss2|].
  assert (Hrp2 : _regular_db_poolsize (manager p2) = [rp])
    by (rewrite Hp2, Hp1; exact Hrp).
  assert (Hrr2 : _regular_db_recycle (manager p2) = [rr])
    by (rewrite Hp2, Hp1; exact Hrr).
  destruct (create_session_miss_state env' db_name t2 p2 rp rr Hmiss2 Hrp2 Hrr2 Hok')
    as (second & records' & Hid' & Hp3).
  fold p3 in Hp3.
  assert (Hengines2 : engines p2 = engines p ++ [first]) by by rewrite Hp2, Hp1.
  exists first, second. split; [|split].
  - rewrite Hp3. cbn [engines]. by rewrite Hengines2, <- app_assoc.
  - rewrite Hid, Hid', Hengines2, length_app. cbn. lia.
  - rewrite Hp3. cbn. apply lookup_insert_eq.
Qed.

Lemma sweep_forces_rebuild_witness :
  _connections (db_cacher (manager (start default_manager))) !! KStr "tenant7" = None
  /\ (0 < 60)%Q
  /\ exists first second,
       engines
         (Py.final (create_session healthy "tenant7" 61)
            (Py.final (on_cache (sweep 60))
               (Py.final (create_session healthy "tenant7" 0) (start default_manager))))
       = [] ++ [first; second]
       /\ engine_id first <> engine_id second.
Proof.
  split; [reflexivity|]. split; [reflexivity|].
  destruct (sweep_forces_rebuild healthy healthy "tenant7" 0 60 61 (start default_manager)
              5 300 eq_refl eq_refl eq_refl (fun _ => eq_refl) (fun _ => eq_refl) eq_refl)
    as (_ & first & second & Hengines & Hdistinct & _).
  exists first, second. split; [exact Hengines | exact Hdistinct].
Defined.

(** [create_session] touches one key only: the entries of every other key
    are as before, whatever the outcome, and so are [main_db], [db_url] and
    the four sizing attributes. *)
Theorem create_session_touches_one_key env db_name (now : Q) p k :
  k <> KStr db_name ->
  _connections (db_cacher (manager (Py.final (create_session env db_name now) p))) !! k
  = _connections (db_cacher (manager p)) !! k
  /\ set_db_cacher (db_cacher (manager p))
       (manager (Py.final (create_session env db_name now) p))
     = manager p.
Proof.
  intros Hk. unfold Py.final.
  destruct (create_session_cases env db_name now p)
    as [(entry & Hhit & ->) | [(Hmiss & e & ->) | (Hmiss & built & ->)]].
  - destruct (create_pool_connection_frame env (db_pool entry) p) as (r & records & ->).
    cbn [snd manager]. by rewrite set_db_cacher_same.
  - cbn [snd]. by rewrite set_db_cacher_same.
  - match goal with
    | |- context [_create_pool_connection ?e ?b ?q] =>
        destruct (create_pool_connection_frame e b q) as (r & records & ->)
    end.
    cbn [snd manager]. split.
    + cbn. by rewrite lookup_insert_ne.
    + destruct (manager p). reflexivity.
Qed.

Lemma create_session_touches_one_key_witness :
  KStr "tenant7" <> KStr "tenant8"
  /\ _connections
       (db_cacher
          (manager
             (Py.final (create_session healthy "tenant8" 9)
                (Py.final (create_session healthy "tenant7" 0) (start default_manager)))))
       !! KStr "tenant7"
     = _connections
         (db_cacher
            (manager (Py.final (create_session healthy "tenant7" 0) (start default_manager))))
         !! KStr "tenant7".
Proof.
  split; [discriminate|].
  apply (create_session_touches_one_key healthy "tenant8" 9
           (Py.final (create_session healthy "tenant7" 0) (start default_manager))
           (KStr "tenant7")).
  discriminate.
Defined.

End FactoryExtras.

(** ** More on the constructor *)

Section ConstructorExtras.

Import DbFactory Samples.

(** With each main value either [None] or an integer of magnitude under
    [3 * 2^52], the constructor raises exactly when a main value is [None]
    while the matching regular value is [None] or 0 (the fallback then
    divides [None] by 3), and what it raises is a [TypeError]; in every
    other case it returns a manager. *)
Theorem constructor_raises_on_none_main main url (mp mr rp rr : option int_or_none) :
  Py.within_exact_range (Py.arg (Some 15) mp) ->
  Py.within_exact_range (Py.arg (Some 900) mr) ->
  ((Py.arg (Some 15) mp = None /\ Py.truthy (Py.arg (Some 5) rp) = false)
   \/ (Py.arg (Some 900) mr = None /\ Py.truthy (Py.arg (Some 300) rr) = false) ->
   exists e, __init__ main url mp mr rp rr = Raise e /\ exc_class e = TypeError)
  /\ (~ ((Py.arg (Some 15) mp = None /\ Py.truthy (Py.arg (Some 5) rp) = false)
         \/ (Py.arg (Some 900) mr = None /\ Py.truthy (Py.arg (Some 300) rr) = false)) ->
      exists m, __init__ main url mp mr rp rr = Return m).
Proof.
  intros Hmp Hmr. unfold __init__. cbv zeta.
  destruct (Py.arg (Some 15) mp) as [a|], (Py.arg (Some 900) mr) as [b|],
    (Py.arg (Some 5) rp) as [c|], (Py.arg (Some 300) rr) as [d|];
    cbn [Py.within_exact_range] in Hmp, Hmr;
    rewrite ?(int_truediv3_exact a Hmp), ?(int_truediv3_exact b Hmr);
    unfold Py.and_then, Py.or_else, Py.truthy;
    change (Py.int_truediv3 None)
      with (@Raise Z (mkExc TypeError
                        "unsupported operand type(s) for /: 'NoneType' and 'int'"));
    try destruct (a =? 0); try destruct (b =? 0);
    try destruct (c =? 0); try destruct (d =? 0); cbn [negb];
    (split; [intros [[? ?] | [? ?]]; try discriminate; by eexists
            | intros Hnot; try (by eexists); exfalso; apply Hnot; auto]).
Qed.

Lemma constructor_raises_on_none_main_witness :
  Py.within_exact_range (Py.arg (Some 15) (Some None))
  /\ Py.within_exact_range (Py.arg (Some 900) None)
  /\ (Py.arg (Some 15) (Some None) = None
      /\ Py.truthy (Py.arg (Some 5) (Some (Some 0))) = false)
  /\ exists e,
       __init__ "main" "postgresql://host" (Some None) None (Some (Some 0)) None = Raise e
       /\ exc_class e = TypeError.
Proof.
  split; [exact I|]. split; [reflexivity|]. split; [by split|].
  apply (constructor_raises_on_none_main "main" "postgresql://host"
           (Some None) None (Some (Some 0)) None); [exact I | reflexivity |].
  left. by split.
Defined.

(** Values other than 0 are taken as given, negative ones too: the manager
    builds the main pool and the regular pools with exactly the four values
    passed, and its cache is always the default one ([maxsize] 10,
    [default_ttl] 900, empty). *)
Theorem explicit_values_used_as_given main url (a b c d : Z) :
  a <> 0 -> b <> 0 -> c <> 0 -> d <> 0 ->
  exists m,
    __init__ main url (Some (Some a)) (Some (Some b)) (Some (Some c)) (Some (Some d))
    = Return m
    /\ builds_with m MainTenant pool_size a
    /\ builds_with m MainTenant pool_recycle b
    /\ builds_with m RegularTenant pool_size c
    /\ builds_with m RegularTenant pool_recycle d
    /\ db_cacher m = DbCacher.__init__ None None.
Proof.
  intros Ha Hb Hc Hd. eexists.
  split; [apply (init_of_parts main url (Some (Some a)) (Some (Some b)) (Some (Some c))
                   (Some (Some d)) a b c d);
          by apply or_else_truthy|].
  repeat (split; [eapply builds_with_fields; reflexivity|]). reflexivity.
Qed.

Lemma explicit_values_used_as_given_witness :
  -4 <> 0 /\ 60 <> 0 /\ 1 <> 0 /\ -1 <> 0
  /\ exists m,
       __init__ "main" "postgresql://host" (Some (Some (-4))) (Some (Some 60))
         (Some (Some 1)) (Some (Some (-1)))
       = Return m
       /\ builds_with m MainTenant pool_size (-4)
       /\ builds_with m RegularTenant pool_recycle (-1).
Proof.
  do 4 (split; [discriminate|]).
  destruct (explicit_values_used_as_given "main" "postgresql://host" (-4) 60 1 (-1))
    as (m & Hm & Hmain & _ & _ & Hrecycle & _); try discriminate.
  exists m. by repeat split.
Defined.

End ConstructorExtras.
